(** * rain_analyze: the CSV row parser, the payload decoder and the series
    assembler of [analyze_plot.py], embedded as Rocq functions.

    Python [str] values are sequences of Unicode code points; they are
    modelled as lists of integers.  Instants (pandas [Timestamp]) are
    counts of nanoseconds held in a signed 64-bit integer; arithmetic
    that leaves this range raises.  Voltages are IEEE binary64 numbers,
    as Python's [float]. *)

From Stdlib Require Import ZArith QArith Qabs List Bool Lia String Ascii.
From Stdlib Require Import Floats Uint63 Sorted Permutation.
Import ListNotations.
Open Scope Z_scope.
Set Warnings "-inexact-float".

(** ** Python strings *)

Module PyStr.

Definition char := Z.
Definition str := list char.

(** The code points of a literal. *)
Definition codes (s : string) : str :=
  map (fun a => Z.of_nat (nat_of_ascii a)) (list_ascii_of_string s).

Definition dquote : char := 34.
Definition squote : char := 39.
Definition semicolon : char := 59.

(** The characters [str.strip()] removes: those for which [str.isspace]
    holds. *)
Definition is_space (c : char) : bool :=
  ((9 <=? c) && (c <=? 13)) || ((28 <=? c) && (c <=? 32))
  || (c =? 133) || (c =? 160) || (c =? 5760)
  || ((8192 <=? c) && (c <=? 8202))
  || (c =? 8232) || (c =? 8233) || (c =? 8239) || (c =? 8287)
  || (c =? 12288).

Fixpoint lstrip (s : str) : str :=
  match s with
  | [] => []
  | c :: t => if is_space c then lstrip t else s
  end.

Definition rstrip (s : str) : str := rev (lstrip (rev s)).

(** [s.strip()] *)
Definition strip (s : str) : str := rstrip (lstrip s).

(** [s.replace(c, '')] for a one-character [c]. *)
Definition remove_char (c : char) (s : str) : str :=
  filter (fun x => negb (x =? c)) s.

(** [s.split(sep)] for a one-character separator: always at least one
    field. *)
Fixpoint split (sep : char) (s : str) : list str :=
  match s with
  | [] => [[]]
  | c :: t =>
      if c =? sep then [] :: split sep t
      else match split sep t with
           | [] => [[c]]
           | f :: fs => (c :: f) :: fs
           end
  end.

Fixpoint starts_with (p s : str) : bool :=
  match p, s with
  | [], _ => true
  | _ :: _, [] => false
  | a :: p', b :: s' => (a =? b) && starts_with p' s'
  end.

(** [sub in s] *)
Fixpoint contains (sub s : str) : bool :=
  starts_with sub s ||
  match s with
  | [] => false
  | _ :: t => contains sub t
  end.

(** [s[a:b]] for [0 <= a <= b]. *)
Definition slice (a b : nat) (s : str) : str := firstn (b - a) (skipn a s).

(** The value of one hexadecimal digit, if it is one. *)
Definition hex_digit (c : char) : option Z :=
  if (48 <=? c) && (c <=? 57) then Some (c - 48)
  else if (97 <=? c) && (c <=? 102) then Some (c - 87)
  else if (65 <=? c) && (c <=? 70) then Some (c - 55)
  else None.

Definition is_hex (c : char) : bool :=
  match hex_digit c with Some _ => true | None => false end.

(** [re.sub(r"[^0-9a-fA-F]", "", s)] *)
Definition re_sub_nonhex (s : str) : str := filter is_hex s.

Fixpoint int16_from (acc : Z) (s : str) : option Z :=
  match s with
  | [] => Some acc
  | c :: t =>
      match hex_digit c with
      | Some d => int16_from (acc * 16 + d) t
      | None => None
      end
  end.

(** [int(s, 16)] on a string of hexadecimal digits; [None] stands for the
    [ValueError] raised on the empty string and on any other character.
    (Python also accepts a sign, a [0x] prefix, underscores and blanks;
    none of them survives [re_sub_nonhex], the only producer of the
    strings handed to [int] here.) *)
Definition int16 (s : str) : option Z :=
  match s with
  | [] => None
  | _ => int16_from 0 s
  end.

End PyStr.
Import PyStr.

(** ** Row parser *)

(** One entry of [parsed_rows]: [[data_str, device_id, timestamp]]. *)
Record RawRow := mkRawRow {
  raw_Data : str;
  raw_DeviceID : str;
  raw_Timestamp : str
}.

(** The expression of the list comprehension: [p.strip()], then the two
    [replace] calls deleting the double quotes and the single quotes. *)
Definition clean (p : str) : str :=
  remove_char squote (remove_char dquote (strip p)).

(** [clean_parts] for a line, [line.strip()] included. *)
Definition clean_parts (line : str) : list str :=
  let line := strip line in
  let parts := split semicolon line in
  map clean parts.

(** ["Data" in data_str and "Timestamp" in timestamp] *)
Definition is_header (data_str timestamp : str) : bool :=
  contains (codes "Data") data_str && contains (codes "Timestamp") timestamp.

(** The body of [for line in f]: the row it appends, or [None] when the
    line is skipped. *)
Definition parse_line (line : str) : option RawRow :=
  match strip line with
  | [] => None
  | _ =>
      let cp := clean_parts line in
      if (4 <=? List.length cp)%nat then
        let data_str := nth 0 cp [] in
        let device_id := nth 1 cp [] in
        let timestamp := last cp [] in
        if is_header data_str timestamp then None
        else Some (mkRawRow data_str device_id timestamp)
      else None
  end.

(** [load_data] on the lines of the file, with [parsed_rows] threaded
    through the loop. *)
Fixpoint load_data_loop (lines : list str) (parsed_rows : list RawRow)
    : list RawRow :=
  match lines with
  | [] => parsed_rows
  | line :: rest =>
      match parse_line line with
      | None => load_data_loop rest parsed_rows
      | Some r => load_data_loop rest (parsed_rows ++ [r])
      end
  end.

Definition load_data (lines : list str) : list RawRow :=
  load_data_loop lines [].

(** ** Payload decoder *)

(** A row of [df_raw] after the timestamp column has been parsed. *)
Record Row := mkRow {
  Data : str;
  DeviceID : str;
  Timestamp : Z
}.

(** One record appended to [extracted_data]. *)
Record Sample := mkSample {
  Timestamp_JST : Z;
  Distance_mm : Z;
  Voltage_V : float;
  Battery_Pct : Z;
  Sample_DeviceID : str
}.

(** [pd.Timedelta(minutes=m)], in nanoseconds. *)
Definition Timedelta_minutes (m : Z) : Z := m * 60000000000.

(** The values of a nanosecond [Timestamp]: a signed 64-bit integer whose
    smallest value stands for [NaT], so that [pd.Timestamp.min] is one
    above it and [pd.Timestamp.max] is the largest one. *)
Definition int64_min : Z := -9223372036854775808.
Definition int64_max : Z := 9223372036854775807.
Definition Timestamp_min : Z := -9223372036854775807.
Definition Timestamp_max : Z := 9223372036854775807.

(** [current_time - pd.Timedelta(minutes=m)]: the subtraction is checked,
    and [None] is the [OutOfBoundsDatetime] raised when the result does
    not fit the 64 bits.  A result equal to [int64_min] is not an error:
    it is [NaT]. *)
Definition Timestamp_sub_minutes (current_time m : Z) : option Z :=
  let r := current_time - Timedelta_minutes m in
  if (int64_min <=? r) && (r <=? int64_max) then Some r else None.

(** [float(n)] for a small non-negative integer. *)
Definition float_of_Z (n : Z) : float := PrimFloat.of_uint63 (Uint63.of_Z n).

(** [(volt_val * 0.0125) + 1.0] *)
Definition voltage_of (volt_val : Z) : float :=
  (float_of_Z volt_val * 0.0125 + 1.0)%float.

Definition range (n : nat) : list nat := seq 0 n.

(** The body of the loop [for i in range(5)], one iteration; [None] is an
    exception escaping to the handler. *)
Definition extract_one (s : str) (current_time : Z) (voltage : float)
    (batt_pct : Z) (device : str) (i : nat) : option Sample :=
  let start_idx := (4 + i * 4)%nat in
  let end_idx := (start_idx + 4)%nat in
  match int16 (slice start_idx end_idx s) with
  | None => None
  | Some distance_mm =>
      match Timestamp_sub_minutes current_time (Z.of_nat i * 2) with
      | None => None
      | Some record_time =>
          Some (mkSample record_time distance_mm voltage batt_pct device)
      end
  end.

(** The loop, appending to [extracted_data]. *)
Fixpoint extract_loop (s : str) (current_time : Z) (voltage : float)
    (batt_pct : Z) (device : str) (idxs : list nat)
    (extracted_data : list Sample) : option (list Sample) :=
  match idxs with
  | [] => Some extracted_data
  | i :: rest =>
      match extract_one s current_time voltage batt_pct device i with
      | None => None
      | Some r =>
          extract_loop s current_time voltage batt_pct device rest
            (extracted_data ++ [r])
      end
  end.

(** The inner [try] block of [decode_payload] after the length test. *)
Definition decode_body (s : str) (current_time : Z) (device : str)
    : option (list Sample) :=
  match int16 (slice 0 2 s) with
  | None => None
  | Some volt_val =>
      let voltage := voltage_of volt_val in
      match int16 (slice 2 4 s) with
      | None => None
      | Some batt_pct =>
          extract_loop s current_time voltage batt_pct device (range 5) []
      end
  end.

Definition decode_payload (row : Row) : list Sample :=
  let hex_str := Data row in
  let current_time := Timestamp row in
  let s := re_sub_nonhex hex_str in
  if (List.length s <? 24)%nat then []
  else match decode_body s current_time (DeviceID row) with
       | Some extracted_data => extracted_data
       | None => []
       end.

(** ** Series assembler *)

(** The loop [for _, row in df_raw.iterrows()], extending [all_records]. *)
Fixpoint collect (rows : list Row) (acc : list Sample) : list Sample :=
  match rows with
  | [] => acc
  | row :: rest => collect rest (acc ++ decode_payload row)
  end.

Definition ts_le (a b : Sample) : Prop := Timestamp_JST a <= Timestamp_JST b.

(** [DataFrame.sort_values('Timestamp_JST')] with its default
    [kind='quicksort']: a deterministic reordering of the rows into
    ascending key order.  The library promises nothing about the order of
    rows with equal keys for this kind, so nothing more is recorded. *)
Record Sorter := mkSorter {
  sort_values : list Sample -> list Sample;
  sort_values_perm : forall l, Permutation l (sort_values l);
  sort_values_sorted : forall l, StronglySorted ts_le (sort_values l)
}.

(** [df_plot] from [all_records]; [None] is the early return of [main] on
    an empty [all_records]. *)
Definition assemble (S : Sorter) (recs : list Sample) : option (list Sample) :=
  match recs with
  | [] => None
  | _ => Some (sort_values S recs)
  end.

(** The part of [main] from the decoding loop to [df_plot]. *)
Definition main_series (S : Sorter) (rows : list Row) : option (list Sample) :=
  assemble S (collect rows []).

(** Two insertion sorts that differ only on equal keys: [before x y] tells
    whether a row with key [x] is placed in front of one with key [y]. *)
Fixpoint insert_by (before : Z -> Z -> bool) (x : Sample) (l : list Sample)
    : list Sample :=
  match l with
  | [] => [x]
  | y :: t =>
      if before (Timestamp_JST x) (Timestamp_JST y) then x :: l
      else y :: insert_by before x t
  end.

Definition isort_by (before : Z -> Z -> bool) (l : list Sample) : list Sample :=
  fold_right (insert_by before) [] l.

(** Rows with equal keys keep their relative order. *)
Definition ties_in_input_order (input output : list Sample) : Prop :=
  forall t,
    filter (fun r => Timestamp_JST r =? t) output
    = filter (fun r => Timestamp_JST r =? t) input.

(** ** Timestamp normalization and the rest of [main] *)

(** [pd.to_datetime(column, errors='coerce', utc=True)] on the whole
    timestamp column: one cell out per cell in, [None] for [NaT].  The
    parser is the library's; only the shape of its result is recorded. *)
Record DateParser := mkDateParser {
  to_datetime : list str -> list (option Z);
  to_datetime_length :
    forall col, List.length (to_datetime col) = List.length col
}.

(** [dropna(subset=['Timestamp'])] on one row; [tz_convert] changes the
    zone of the instant, not the instant. *)
Definition dropna_row (r : RawRow) (t : option Z) : list Row :=
  match t with
  | Some t => [mkRow (raw_Data r) (raw_DeviceID r) t]
  | None => []
  end.

Definition normalize (P : DateParser) (df_raw : list RawRow) : list Row :=
  flat_map (fun rt => dropna_row (fst rt) (snd rt))
           (combine df_raw (to_datetime P (map raw_Timestamp df_raw))).

(** [Series.min()] and [Series.max()]: the missing values are skipped,
    and a column with no value left gives [nan]. *)
Definition skipna (l : list float) : list float :=
  filter (fun x => negb (PrimFloat.is_nan x)) l.

Definition column_min (l : list float) : float :=
  match skipna l with
  | [] => nan
  | x :: t => fold_left (fun m y => if (y <? m)%float then y else m) t x
  end.

Definition column_max (l : list float) : float :=
  match skipna l with
  | [] => nan
  | x :: t => fold_left (fun m y => if (m <? y)%float then y else m) t x
  end.

(** What a run of [main] ends with: one of the two early returns, or the
    data handed to the plotting calls ([df_plot], the device ID of the
    title, and the limits given to [ax2.set_ylim] when the call is made). *)
Inductive Outcome :=
| NoData
| NoPackets
| Chart (df_plot : list Sample) (device_id : str)
        (ylim : option (float * float)).

Definition main (P : DateParser) (S : Sorter) (lines : list str) : Outcome :=
  let df_raw := load_data lines in
  match df_raw with
  | [] => NoData
  | _ :: _ =>
      let df_raw := normalize P df_raw in
      let all_records := collect df_raw [] in
      match all_records with
      | [] => NoPackets
      | _ :: _ =>
          let df_plot := sort_values S all_records in
          let device_id :=
            match df_plot with
            | r :: _ => Sample_DeviceID r
            | [] => codes "Unknown"
            end in
          let v_min := column_min (map Voltage_V df_plot) in
          let v_max := column_max (map Voltage_V df_plot) in
          let ylim :=
            if negb (PrimFloat.is_nan v_min) && negb (PrimFloat.is_nan v_max)
            then Some (v_min - 0.05, v_max + 0.05)%float
            else None in
          Chart df_plot device_id ylim
      end
  end.

(** ** Vocabulary of the statements *)

(** Hex digit [k] of a normalized payload, and byte [k] (hex digits [2k]
    and [2k+1]). *)
Definition digit_at (s : str) (k : nat) : Z :=
  match hex_digit (nth k s 0) with Some d => d | None => 0 end.

Definition byte_at (s : str) (k : nat) : Z :=
  16 * digit_at s (2 * k) + digit_at s (2 * k + 1).

Definition no_leading_space (s : str) : Prop :=
  match s with
  | [] => True
  | c :: _ => is_space c = false
  end.

Definition no_trailing_space (s : str) : Prop := no_leading_space (rev s).

Definition quote_free (s : str) : Prop :=
  forall c, In c s -> c <> dquote /\ c <> squote.

Definition all_hex (s : str) : Prop := Forall (fun c => is_hex c = true) s.

Definition all_space (s : str) : Prop := Forall (fun c => is_space c = true) s.

(** The row's instant and the one eight minutes before it both fit the
    64 bits: none of the five subtractions of the decoder raises. *)
Definition in_window (row : Row) : bool :=
  (int64_min <=? Timestamp row - Timedelta_minutes 8)
  && (Timestamp row <=? int64_max).

(** The row's instant is a valid [Timestamp], and so is the instant eight
    minutes before it. *)
Definition representable (row : Row) : Prop :=
  Timestamp_min + Timedelta_minutes 8 <= Timestamp row <= Timestamp_max.

(** A row stamped less than a second after the smallest [Timestamp]
    (1677-09-21 00:12:44 UTC), with a well-formed payload. *)
Definition early_row : Row :=
  mkRow (codes "64320064012C01F401900258") (codes "1F06AD2")
        (-9223372036000000000).

(** A row that yields a batch: a long enough payload, and no subtraction
    out of range. *)
Definition yields (row : Row) : bool :=
  (24 <=? List.length (re_sub_nonhex (Data row)))%nat && in_window row.

(** Sample [i] of a row whose normalized payload is [s]. *)
Definition decoded_sample (s : str) (row : Row) (i : nat) : Sample :=
  mkSample (Timestamp row - Timedelta_minutes (Z.of_nat i * 2))
           (256 * byte_at s (2 + 2 * i) + byte_at s (3 + 2 * i))
           (voltage_of (byte_at s 0))
           (byte_at s 1)
           (DeviceID row).

(** The exact rational value of a finite binary64 number. *)
Definition Q_of_float (f : float) : option Q :=
  match Prim2SF f with
  | S754_zero _ => Some 0%Q
  | S754_finite sg m e =>
      let mz := if sg then Z.neg m else Z.pos m in
      Some (inject_Z mz * (2 ^ e))%Q
  | _ => None
  end.

(** The computed voltage is within [1/k] of the exact [v/80 + 1]. *)
Definition volt_error_within (k : positive) (v : Z) : bool :=
  match Q_of_float (voltage_of v) with
  | Some q => Qle_bool (Qabs (q - (inject_Z v * (1 # 80) + 1))) (1 # k)
  | None => false
  end.

Definition volt_in_range (v : Z) : bool :=
  (1.0 <=? voltage_of v)%float && (voltage_of v <=? 4.1875)%float.

Definition bytes : list Z := map Z.of_nat (seq 0 256).

Definition example_payload : str := codes "64320064012C01F401900258".

Definition example_row (t : Z) (dev : str) : Row := mkRow example_payload dev t.

(** Four messages stamped with the same instant: twenty samples, every
    timestamp shared by four of them. *)
Definition tied_rows : list Row :=
  [ mkRow (codes "64320064012C01F401900258") (codes "1F06AD2") 600000000000;
    mkRow (codes "6432000A000B000C000D000E") (codes "1F06AD2") 600000000000;
    mkRow (codes "643200140015001600170018") (codes "1F06AD2") 600000000000;
    mkRow (codes "6432001E001F002000210022") (codes "1F06AD2") 600000000000 ].

(** A field wrapped in double quotes, and a line of such fields, as in the
    export the docstring of [load_data] describes. *)
Definition quoted (s : string) : str := dquote :: codes s ++ [dquote].

Fixpoint joined (fields : list str) : str :=
  match fields with
  | [] => []
  | [f] => f
  | f :: rest => f ++ semicolon :: joined rest
  end.

Definition header_line : str :=
  joined [quoted "Data"; quoted "Device ID"; quoted "Sequence number";
          quoted "Timestamp"].

Definition data_line : str :=
  joined [quoted "64320064012C01F401900258"; quoted "1F06AD2"; quoted "12";
          quoted "2024-05-01 10:00:00"] ++ [10].

(** ** Vocabulary of the further properties *)

Definition ts_lt (a b : Sample) : Prop := Timestamp_JST a < Timestamp_JST b.

Definition ts_gt (a b : Sample) : Prop := Timestamp_JST b < Timestamp_JST a.

(** The number of semicolons of a line. *)
Definition semicolons (s : str) : nat :=
  List.length (filter (fun c => c =? semicolon) s).

Definition sep_free (s : str) : Prop := ~ In semicolon s.

(** A field between double quotes. *)
Definition wrap (f : str) : str := dquote :: f ++ [dquote].

(** The upper-case form of an ASCII letter. *)
Definition ascii_upper (c : char) : char :=
  if (97 <=? c) && (c <=? 122) then c - 32 else c.

(** A normalized payload long enough to be decoded. *)
Definition decodable (row : Row) : bool :=
  (24 <=? List.length (re_sub_nonhex (Data row)))%nat.

(** The wire format, written out: two upper-case hex digits per byte, the
    distances as two bytes each, high byte first. *)
Definition hex_char (d : Z) : char := if d <? 10 then 48 + d else 55 + d.

Definition hex_byte (b : Z) : str := [hex_char (b / 16); hex_char (b mod 16)].

Definition hex_word (w : Z) : str := hex_byte (w / 256) ++ hex_byte (w mod 256).

Definition encode_payload (volt_val batt_pct : Z) (distances : list Z) : str :=
  hex_byte volt_val ++ hex_byte batt_pct ++ flat_map hex_word distances.

Definition export_fields : list str :=
  [example_payload; codes "1F06AD2"; codes " 12 "; codes "2024-05-01 10:00:00"].

(** A parser for instants written as a count of seconds in decimal
    digits; anything else is [NaT]. *)
Fixpoint decimal_from (acc : Z) (s : str) : option Z :=
  match s with
  | [] => Some acc
  | c :: t =>
      if (48 <=? c) && (c <=? 57) then decimal_from (acc * 10 + (c - 48)) t
      else None
  end.

Definition seconds_cell (s : str) : option Z :=
  match s with
  | [] => None
  | _ => option_map (fun n => n * 1000000000) (decimal_from 0 s)
  end.

Definition seconds_parser : DateParser :=
  mkDateParser (map seconds_cell) (length_map seconds_cell).

(** A parser that reads every cell as the same instant. *)
Definition fixed_parser (t : Z) : DateParser :=
  mkDateParser (map (fun _ => Some t)) (length_map (fun _ => Some t)).




(** A small export: the header, two messages, a blank line and a line
    whose timestamp is not a number. *)
Definition small_export : list str :=
  [ header_line;
    joined [quoted "C8320064012C01F401900258"; quoted "1F06AD2"; quoted "7";
            quoted "1200"] ++ [10];
    joined [quoted "6432000A000B000C000D000E"; quoted "1F06AD2"; quoted "6";
            quoted "600"] ++ [10];
    [10];
    joined [quoted "6432000A000B000C000D000E"; quoted "1F06AD2"; quoted "5";
            quoted "yesterday"] ++ [10] ].

(** Checks run over every pair of byte values. *)
Definition volt_table_ok (b1 b2 : Z) : bool :=
  Bool.eqb (voltage_of b2 <? voltage_of b1)%float (b2 <? b1)
  && Bool.eqb (voltage_of b1 <=? voltage_of b2)%float (b1 <=? b2)
  && negb (PrimFloat.is_nan (voltage_of b1)).

Definition volt_margin_ok (b1 b2 : Z) : bool :=
  if b1 <=? b2
  then (voltage_of b1 - 0.05 <? voltage_of b2)%float
       && (voltage_of b1 <? voltage_of b2 + 0.05)%float
  else true.

Definition in_byte (b : Z) : Prop := 0 <= b <= 255.

(** * Properties *)

(** ** The model on concrete inputs *)

Example strip_blanks : strip (codes "  a b ") = codes "a b".
Proof. reflexivity. Qed.

Example strip_ideographic_space : strip [12288; 97; 9; 10] = [97].
Proof. reflexivity. Qed.

Example split_keeps_empty_fields :
  split semicolon (codes "a;;b") = [codes "a"; []; codes "b"].
Proof. reflexivity. Qed.

Example split_empty : split semicolon [] = [[]].
Proof. reflexivity. Qed.

Example contains_inside : contains (codes "Data") (codes "MyData1") = true.
Proof. reflexivity. Qed.

Example contains_case : contains (codes "Data") (codes "data") = false.
Proof. reflexivity. Qed.

Example clean_quoted : clean (quoted "1F06AD2") = codes "1F06AD2".
Proof. reflexivity. Qed.

Example int16_word_value : int16 (codes "012C") = Some 300.
Proof. reflexivity. Qed.

Example int16_mixed_case : int16 (codes "fF") = Some 255.
Proof. reflexivity. Qed.

Example int16_empty : int16 [] = None.
Proof. reflexivity. Qed.

Example header_is_skipped : parse_line header_line = None.
Proof. reflexivity. Qed.

Example data_line_is_kept :
  parse_line data_line
  = Some (mkRawRow example_payload (codes "1F06AD2")
                   (codes "2024-05-01 10:00:00")).
Proof. reflexivity. Qed.

Example load_data_export :
  load_data [header_line; data_line; codes "  "; codes "a;b;c"; data_line]
  = [ mkRawRow example_payload (codes "1F06AD2") (codes "2024-05-01 10:00:00");
      mkRawRow example_payload (codes "1F06AD2") (codes "2024-05-01 10:00:00") ].
Proof. reflexivity. Qed.

Example decode_example :
  decode_payload (example_row 600000000000 (codes "1F06AD2"))
  = [ mkSample 600000000000 100 2.25 50 (codes "1F06AD2");
      mkSample 480000000000 300 2.25 50 (codes "1F06AD2");
      mkSample 360000000000 500 2.25 50 (codes "1F06AD2");
      mkSample 240000000000 400 2.25 50 (codes "1F06AD2");
      mkSample 120000000000 600 2.25 50 (codes "1F06AD2") ].
Proof. reflexivity. Qed.

Example decode_ignores_separators :
  decode_payload (mkRow (codes "64 32-0064:012C 01F4 0190 0258 ffff") [] 0)
  = decode_payload (example_row 0 []).
Proof. reflexivity. Qed.

Example decode_short : decode_payload (mkRow (codes "64320064012C01F40190025") [] 0) = [].
Proof. reflexivity. Qed.

(** ** Hexadecimal strings *)

Lemma hex_digit_range c d : hex_digit c = Some d -> 0 <= d <= 15.
Proof.
  unfold hex_digit.
  destruct ((48 <=? c) && (c <=? 57)) eqn:E1;
    [|destruct ((97 <=? c) && (c <=? 102)) eqn:E2;
      [|destruct ((65 <=? c) && (c <=? 70)) eqn:E3]];
    intros H; inversion H; subst; clear H; lia.
Qed.

Lemma re_sub_nonhex_all_hex s : all_hex (re_sub_nonhex s).
Proof.
  unfold all_hex, re_sub_nonhex. apply Forall_forall.
  intros c Hc. apply filter_In in Hc. tauto.
Qed.

Lemma re_sub_nonhex_fixed s : all_hex s -> re_sub_nonhex s = s.
Proof.
  unfold all_hex, re_sub_nonhex. induction 1 as [|c t Hc _ IH]; simpl.
  - reflexivity.
  - rewrite Hc, IH. reflexivity.
Qed.

Lemma all_hex_digit_at s k :
  all_hex s -> (k < List.length s)%nat ->
  hex_digit (nth k s 0) = Some (digit_at s k) /\ 0 <= digit_at s k <= 15.
Proof.
  intros Hs Hk. unfold digit_at.
  assert (Hh : is_hex (nth k s 0) = true).
  { unfold all_hex in Hs. rewrite Forall_forall in Hs.
    apply Hs, nth_In, Hk. }
  unfold is_hex in Hh.
  destruct (hex_digit (nth k s 0)) as [d|] eqn:E; [|discriminate].
  split; [reflexivity | eapply hex_digit_range; eassumption].
Qed.

Lemma byte_at_range s k :
  all_hex s -> (2 * k + 2 <= List.length s)%nat -> 0 <= byte_at s k <= 255.
Proof.
  intros Hs Hk. unfold byte_at.
  destruct (all_hex_digit_at s (2 * k) Hs) as [_ H1]; [lia|].
  destruct (all_hex_digit_at s (2 * k + 1) Hs) as [_ H2]; [lia|].
  lia.
Qed.

Lemma skipn_cons_nth (s : str) a :
  (a < List.length s)%nat -> skipn a s = nth a s 0 :: skipn (S a) s.
Proof.
  revert s. induction a as [|a IH]; intros [|c t] H; simpl in *; try lia.
  - reflexivity.
  - apply IH. lia.
Qed.

Lemma slice_two s a :
  (a + 2 <= List.length s)%nat ->
  slice a (a + 2) s = [nth a s 0; nth (a + 1) s 0].
Proof.
  intros H. unfold slice.
  replace (a + 2 - a)%nat with 2%nat by lia.
  rewrite (skipn_cons_nth s a) by lia.
  rewrite (skipn_cons_nth s (S a)) by lia.
  replace (a + 1)%nat with (S a) by lia. reflexivity.
Qed.

Lemma slice_four s a :
  (a + 4 <= List.length s)%nat ->
  slice a (a + 4) s
  = [nth a s 0; nth (a + 1) s 0; nth (a + 2) s 0; nth (a + 3) s 0].
Proof.
  intros H. unfold slice.
  replace (a + 4 - a)%nat with 4%nat by lia.
  rewrite (skipn_cons_nth s a) by lia.
  rewrite (skipn_cons_nth s (S a)) by lia.
  rewrite (skipn_cons_nth s (S (S a))) by lia.
  rewrite (skipn_cons_nth s (S (S (S a)))) by lia.
  replace (a + 1)%nat with (S a) by lia.
  replace (a + 2)%nat with (S (S a)) by lia.
  replace (a + 3)%nat with (S (S (S a))) by lia.
  reflexivity.
Qed.

(** [int(s[2k:2k+2], 16)] is byte [k]. *)
Lemma int16_byte s k :
  all_hex s -> (2 * k + 2 <= List.length s)%nat ->
  int16 (slice (2 * k) (2 * k + 2) s) = Some (byte_at s k).
Proof.
  intros Hs Hk. rewrite slice_two by lia.
  destruct (all_hex_digit_at s (2 * k) Hs) as [E1 _]; [lia|].
  destruct (all_hex_digit_at s (2 * k + 1) Hs) as [E2 _]; [lia|].
  unfold int16, int16_from. rewrite E1, E2. unfold byte_at.
  f_equal. lia.
Qed.

(** [int(s[2k:2k+4], 16)] is the big-endian value of bytes [k] and [k+1]. *)
Lemma int16_word s k :
  all_hex s -> (2 * k + 4 <= List.length s)%nat ->
  int16 (slice (2 * k) (2 * k + 4) s)
  = Some (256 * byte_at s k + byte_at s (k + 1)).
Proof.
  intros Hs Hk. rewrite slice_four by lia.
  destruct (all_hex_digit_at s (2 * k) Hs) as [E1 _]; [lia|].
  destruct (all_hex_digit_at s (2 * k + 1) Hs) as [E2 _]; [lia|].
  destruct (all_hex_digit_at s (2 * k + 2) Hs) as [E3 _]; [lia|].
  destruct (all_hex_digit_at s (2 * k + 3) Hs) as [E4 _]; [lia|].
  unfold int16, int16_from. rewrite E1, E2, E3, E4. unfold byte_at.
  replace (2 * (k + 1))%nat with (2 * k + 2)%nat by lia.
  replace (2 * k + 2 + 1)%nat with (2 * k + 3)%nat by lia.
  f_equal. lia.
Qed.

(** ** The decoder in closed form *)

Lemma Timestamp_sub_minutes_ok t m :
  int64_min <= t - Timedelta_minutes m <= int64_max ->
  Timestamp_sub_minutes t m = Some (t - Timedelta_minutes m).
Proof.
  intros [H1 H2]. unfold Timestamp_sub_minutes. cbv zeta.
  apply Z.leb_le in H1, H2. rewrite H1, H2. reflexivity.
Qed.

Lemma Timestamp_sub_minutes_raises t m :
  t - Timedelta_minutes m < int64_min \/ int64_max < t - Timedelta_minutes m ->
  Timestamp_sub_minutes t m = None.
Proof.
  intros H. unfold Timestamp_sub_minutes. cbv zeta.
  destruct (int64_min <=? t - Timedelta_minutes m) eqn:E1;
    destruct (t - Timedelta_minutes m <=? int64_max) eqn:E2;
    try reflexivity.
  apply Z.leb_le in E1, E2. lia.
Qed.

Lemma in_window_spec row :
  in_window row = true <->
  int64_min <= Timestamp row - Timedelta_minutes 8 /\
  Timestamp row <= int64_max.
Proof.
  unfold in_window. rewrite andb_true_iff, !Z.leb_le. reflexivity.
Qed.

Lemma representable_in_window row : representable row -> in_window row = true.
Proof.
  unfold representable, Timestamp_min, Timestamp_max. intros H.
  apply in_window_spec. unfold int64_min, int64_max. lia.
Qed.

Lemma extract_one_ok s t v b dev i :
  all_hex s -> (24 <= List.length s)%nat -> (i < 5)%nat ->
  int64_min <= t - Timedelta_minutes 8 -> t <= int64_max ->
  extract_one s t v b dev i
  = Some (mkSample (t - Timedelta_minutes (Z.of_nat i * 2))
                   (256 * byte_at s (2 + 2 * i) + byte_at s (3 + 2 * i))
                   v b dev).
Proof.
  intros Hs Hl Hi Hlo Hhi. unfold extract_one.
  replace (4 + i * 4)%nat with (2 * (2 + 2 * i))%nat by lia.
  rewrite int16_word by (assumption || lia).
  replace (2 + 2 * i + 1)%nat with (3 + 2 * i)%nat by lia.
  rewrite Timestamp_sub_minutes_ok; [reflexivity|].
  unfold Timedelta_minutes in *. lia.
Qed.

Lemma extract_one_raises s t v b dev i :
  Timestamp_sub_minutes t (Z.of_nat i * 2) = None ->
  extract_one s t v b dev i = None.
Proof.
  intros H. unfold extract_one. rewrite H.
  destruct (int16 _); reflexivity.
Qed.

Lemma extract_loop_ok s t v b dev idxs acc :
  all_hex s -> (24 <= List.length s)%nat ->
  Forall (fun i => (i < 5)%nat) idxs ->
  int64_min <= t - Timedelta_minutes 8 -> t <= int64_max ->
  extract_loop s t v b dev idxs acc
  = Some (acc ++ map (fun i =>
            mkSample (t - Timedelta_minutes (Z.of_nat i * 2))
                     (256 * byte_at s (2 + 2 * i) + byte_at s (3 + 2 * i))
                     v b dev) idxs).
Proof.
  intros Hs Hl Hidx Hlo Hhi. revert acc.
  induction Hidx as [|i rest Hi _ IH]; intros acc; simpl.
  - rewrite app_nil_r. reflexivity.
  - rewrite extract_one_ok by assumption.
    rewrite IH, <- app_assoc. reflexivity.
Qed.

Lemma extract_loop_raises s t v b dev idxs acc i :
  In i idxs -> extract_one s t v b dev i = None ->
  extract_loop s t v b dev idxs acc = None.
Proof.
  intros Hin Hi. revert acc.
  induction idxs as [|j rest IH]; intros acc; [destruct Hin|].
  simpl. destruct Hin as [->|Hin].
  - rewrite Hi. reflexivity.
  - destruct (extract_one s t v b dev j); [apply IH, Hin | reflexivity].
Qed.

Lemma range_5_lt : Forall (fun i => (i < 5)%nat) (range 5).
Proof.
  unfold range. apply Forall_forall. intros i Hi. apply in_seq in Hi. lia.
Qed.

(** The decoder in one equation: five samples when the payload is long
    enough and no subtraction raises, none otherwise. *)
Lemma decode_payload_cases row :
  decode_payload row
  = if (24 <=? List.length (re_sub_nonhex (Data row)))%nat && in_window row
    then map (decoded_sample (re_sub_nonhex (Data row)) row) (range 5)
    else [].
Proof.
  unfold decode_payload.
  set (s := re_sub_nonhex (Data row)) in *.
  assert (Hs : all_hex s) by apply re_sub_nonhex_all_hex.
  destruct (List.length s <? 24)%nat eqn:E.
  { apply Nat.ltb_lt in E.
    destruct (24 <=? List.length s)%nat eqn:E'; [|reflexivity].
    apply Nat.leb_le in E'. lia. }
  apply Nat.ltb_ge in E.
  assert (E' : (24 <=? List.length s)%nat = true) by (apply Nat.leb_le, E).
  rewrite E'. simpl andb.
  unfold decode_body.
  change (slice 0 2 s) with (slice (2 * 0) (2 * 0 + 2) s).
  rewrite int16_byte by (assumption || lia).
  change (slice 2 4 s) with (slice (2 * 1) (2 * 1 + 2) s).
  rewrite int16_byte by (assumption || lia).
  destruct (in_window row) eqn:Ew.
  - apply in_window_spec in Ew. destruct Ew as [Hlo Hhi].
    rewrite extract_loop_ok; try assumption; [reflexivity | apply range_5_lt].
  - assert (Hout : Timestamp row - Timedelta_minutes 8 < int64_min \/
                   int64_max < Timestamp row).
    { unfold in_window in Ew. apply andb_false_iff in Ew.
      destruct Ew as [Ew|Ew]; apply Z.leb_gt in Ew; tauto. }
    destruct Hout as [Hout|Hout].
    + rewrite (extract_loop_raises _ _ _ _ _ _ _ 4%nat); [reflexivity| |].
      * unfold range. apply in_seq. lia.
      * apply extract_one_raises, Timestamp_sub_minutes_raises.
        left. exact Hout.
    + rewrite (extract_loop_raises _ _ _ _ _ _ _ 0%nat); [reflexivity| |].
      * unfold range. apply in_seq. lia.
      * apply extract_one_raises, Timestamp_sub_minutes_raises.
        right. unfold Timedelta_minutes. simpl. lia.
Qed.

Lemma decode_payload_long row :
  (24 <= List.length (re_sub_nonhex (Data row)))%nat ->
  in_window row = true ->
  decode_payload row
  = map (decoded_sample (re_sub_nonhex (Data row)) row) (range 5).
Proof.
  intros Hl Hw. rewrite decode_payload_cases, Hw.
  apply Nat.leb_le in Hl. rewrite Hl. reflexivity.
Qed.

Lemma decode_payload_out_of_window row :
  in_window row = false -> decode_payload row = [].
Proof.
  intros Hw. rewrite decode_payload_cases, Hw, andb_false_r. reflexivity.
Qed.

Lemma decode_payload_short row :
  (List.length (re_sub_nonhex (Data row)) < 24)%nat -> decode_payload row = [].
Proof.
  intros H. unfold decode_payload.
  apply Nat.ltb_lt in H. rewrite H. reflexivity.
Qed.

(** A non-empty batch comes from a payload of at least 24 hex digits. *)
Lemma decode_payload_nonempty row r :
  In r (decode_payload row) ->
  (24 <= List.length (re_sub_nonhex (Data row)))%nat.
Proof.
  intros Hin.
  destruct (Nat.lt_ge_cases (List.length (re_sub_nonhex (Data row))) 24)
    as [Hlt|Hge]; [|exact Hge].
  rewrite decode_payload_short in Hin by exact Hlt. destruct Hin.
Qed.

Lemma In_decode_payload row r :
  In r (decode_payload row) ->
  exists i, (i < 5)%nat /\
    r = decoded_sample (re_sub_nonhex (Data row)) row i.
Proof.
  intros Hin. rewrite decode_payload_cases in Hin.
  destruct ((24 <=? List.length (re_sub_nonhex (Data row)))%nat
            && in_window row); [|destruct Hin].
  apply in_map_iff in Hin. destruct Hin as [i [Hi Hr]].
  exists i. split; [|symmetry; exact Hi].
  unfold range in Hr. apply in_seq in Hr. lia.
Qed.

(** ** Claims about the decoder *)

Lemma range_5 : range 5 = [0; 1; 2; 3; 4]%nat.
Proof. reflexivity. Qed.

(** C2, as the claim states it, fails: the subtraction of the two-minute
    steps is checked, and for a row stamped less than eight minutes after
    the smallest [Timestamp] it raises inside the [try] block, whose
    handler returns the empty list. *)
Lemma decode_payload_early_row_empty :
  ~ (forall row,
       (24 <= List.length (re_sub_nonhex (Data row)))%nat ->
       Timestamp_min <= Timestamp row <= Timestamp_max ->
       List.length (decode_payload row) = 5%nat).
Proof.
  intros H. specialize (H early_row).
  assert (Hl : (24 <= List.length (re_sub_nonhex (Data early_row)))%nat)
    by (vm_compute; lia).
  assert (Ht : Timestamp_min <= Timestamp early_row <= Timestamp_max)
    by (vm_compute; split; discriminate).
  specialize (H Hl Ht). vm_compute in H. discriminate.
Qed.

(** C2, amended: a row whose normalized payload has at least 24 hex
    digits and whose instant is a valid [Timestamp] at least eight
    minutes after the smallest one decodes to exactly five samples;
    sample [i] carries the row's instant minus [i] times two minutes, so
    consecutive samples are exactly two minutes apart and strictly
    decreasing, newest first; all five carry the voltage and battery
    value of the payload's first two bytes and the row's device ID.  A
    row whose instant minus eight minutes falls below the 64-bit range
    decodes to no sample at all. *)
Theorem decode_payload_five_samples (row : Row) :
  ((24 <= List.length (re_sub_nonhex (Data row)))%nat ->
   representable row ->
   List.length (decode_payload row) = 5%nat /\
   (forall i, (i < 5)%nat ->
      exists r, nth_error (decode_payload row) i = Some r /\
        Timestamp_JST r = Timestamp row - Z.of_nat i * Timedelta_minutes 2 /\
        Timestamp_min <= Timestamp_JST r <= Timestamp_max /\
        Voltage_V r = voltage_of (byte_at (re_sub_nonhex (Data row)) 0) /\
        Battery_Pct r = byte_at (re_sub_nonhex (Data row)) 1 /\
        Sample_DeviceID r = DeviceID row) /\
   (forall i r r',
      nth_error (decode_payload row) i = Some r ->
      nth_error (decode_payload row) (S i) = Some r' ->
      Timestamp_JST r' = Timestamp_JST r - Timedelta_minutes 2 /\
      Timestamp_JST r' < Timestamp_JST r)) /\
  (Timestamp row - Timedelta_minutes 8 < int64_min ->
   decode_payload row = []).
Proof.
  split.
  - intros Hl Hrep.
    rewrite (decode_payload_long row Hl (representable_in_window row Hrep)).
    rewrite range_5. set (s := re_sub_nonhex (Data row)).
    unfold representable, Timestamp_min, Timestamp_max in *.
    split; [reflexivity|]. split.
    + intros i Hi.
      exists (decoded_sample s row i).
      split.
      * do 5 (destruct i as [|i]; [reflexivity|]). lia.
      * unfold decoded_sample, Timedelta_minutes in *.
        cbn [Timestamp_JST Voltage_V Battery_Pct Sample_DeviceID].
        repeat split; lia.
    + intros i r r' Hr Hr'.
      do 4 (destruct i as [|i];
            [simpl in Hr, Hr'; inversion Hr; inversion Hr'; subst;
             unfold decoded_sample, Timedelta_minutes; simpl; lia|]).
      simpl in Hr'. destruct i; discriminate.
  - intros Hlow. apply decode_payload_out_of_window.
    unfold in_window. apply andb_false_iff. left. apply Z.leb_gt. exact Hlow.
Qed.

Lemma decode_payload_five_samples_witness :
  (24 <= List.length (re_sub_nonhex (Data (example_row 0 (codes "1F06AD2")))))%nat
  /\ representable (example_row 0 (codes "1F06AD2"))
  /\ List.length (decode_payload (example_row 0 (codes "1F06AD2"))) = 5%nat
  /\ Timestamp early_row - Timedelta_minutes 8 < int64_min
  /\ decode_payload early_row = [].
Proof.
  assert (H : (24 <= List.length
             (re_sub_nonhex (Data (example_row 0 (codes "1F06AD2")))))%nat)
    by (vm_compute; lia).
  assert (Hr : representable (example_row 0 (codes "1F06AD2")))
    by (vm_compute; split; discriminate).
  assert (He : Timestamp early_row - Timedelta_minutes 8 < int64_min)
    by reflexivity.
  split; [exact H|]. split; [exact Hr|]. split.
  - exact (proj1 (proj1 (decode_payload_five_samples _) H Hr)).
  - split; [exact He|].
    exact (proj2 (decode_payload_five_samples early_row) He).
Defined.

(** C6: a payload that keeps fewer than 24 characters once everything but
    [0-9a-fA-F] is removed decodes to the empty list; the decoder is a
    total function, so no error escapes. *)
Theorem decode_payload_too_short (row : Row) :
  (List.length (filter is_hex (Data row)) < 24)%nat ->
  decode_payload row = [].
Proof.
  intros Hshort. unfold decode_payload, re_sub_nonhex.
  destruct (List.length (filter is_hex (Data row)) <? 24)%nat eqn:E.
  - reflexivity.
  - apply Nat.ltb_ge in E. lia.
Qed.

Lemma decode_payload_too_short_witness :
  (List.length (filter is_hex (codes "64-32-00-64 zz")) < 24)%nat
  /\ decode_payload (mkRow (codes "64-32-00-64 zz") (codes "1F06AD2") 0) = [].
Proof.
  assert (H : (List.length (filter is_hex (codes "64-32-00-64 zz")) < 24)%nat)
    by (vm_compute; lia).
  split; [exact H|].
  exact (decode_payload_too_short
           (mkRow (codes "64-32-00-64 zz") (codes "1F06AD2") 0) H).
Defined.

Lemma byte_is_listed v : 0 <= v <= 255 -> In v bytes.
Proof.
  intros Hv. unfold bytes. apply in_map_iff.
  exists (Z.to_nat v). split; [lia|]. apply in_seq. lia.
Qed.

Lemma volt_in_range_bytes : forallb volt_in_range bytes = true.
Proof. vm_compute. reflexivity. Qed.

Lemma volt_error_bytes : forallb (volt_error_within (2 ^ 50)) bytes = true.
Proof. vm_compute. reflexivity. Qed.

Lemma decoded_sample_bounds row i :
  (24 <= List.length (re_sub_nonhex (Data row)))%nat -> (i < 5)%nat ->
  let r := decoded_sample (re_sub_nonhex (Data row)) row i in
  0 <= Distance_mm r <= 65535 /\ 0 <= Battery_Pct r <= 255 /\
  volt_in_range (byte_at (re_sub_nonhex (Data row)) 0) = true.
Proof.
  intros Hl Hi. set (s := re_sub_nonhex (Data row)) in *.
  assert (Hs : all_hex s) by apply re_sub_nonhex_all_hex.
  pose proof (byte_at_range s (2 + 2 * i) Hs) as H1.
  pose proof (byte_at_range s (3 + 2 * i) Hs) as H2.
  pose proof (byte_at_range s 1 Hs) as H3.
  pose proof (byte_at_range s 0 Hs) as H4.
  assert (H1' := H1 ltac:(lia)). assert (H2' := H2 ltac:(lia)).
  assert (H3' := H3 ltac:(lia)). assert (H4' := H4 ltac:(lia)).
  unfold decoded_sample. cbn [Distance_mm Battery_Pct].
  split; [lia|]. split; [lia|].
  pose proof volt_in_range_bytes as Hall.
  rewrite forallb_forall in Hall. apply Hall, byte_is_listed. lia.
Qed.

(** C3, as the claim states it, fails: the battery byte is stored as
    decoded, and a payload whose second byte is [FF] gives 255. *)
Lemma battery_pct_above_100 :
  ~ (forall row r, In r (decode_payload row) -> 0 <= Battery_Pct r <= 100).
Proof.
  intros H.
  specialize (H (mkRow (codes "64FF0064012C01F401900258") (codes "1F06AD2") 0)
                (mkSample 0 100 2.25 255 (codes "1F06AD2"))).
  assert (Hin : In (mkSample 0 100 2.25 255 (codes "1F06AD2"))
                   (decode_payload
                      (mkRow (codes "64FF0064012C01F401900258")
                             (codes "1F06AD2") 0)))
    by (vm_compute; left; reflexivity).
  specialize (H Hin). simpl in H. lia.
Qed.

(** C3, amended: the battery value of every decoded sample is the second
    payload byte, unchanged, hence an integer between 0 and 255; it lies
    in 0..100 exactly when that byte does. *)
Theorem battery_pct_is_raw_byte (row : Row) (r : Sample) :
  In r (decode_payload row) ->
  Battery_Pct r = byte_at (re_sub_nonhex (Data row)) 1 /\
  0 <= Battery_Pct r <= 255 /\
  (Battery_Pct r <= 100 <-> byte_at (re_sub_nonhex (Data row)) 1 <= 100).
Proof.
  intros Hin. pose proof (decode_payload_nonempty _ _ Hin) as Hl.
  destruct (In_decode_payload _ _ Hin) as [i [Hi ->]].
  destruct (decoded_sample_bounds row i Hl Hi) as [_ [Hb _]].
  unfold decoded_sample in *. cbn [Battery_Pct] in *. repeat split; lia.
Qed.

Lemma battery_pct_is_raw_byte_witness :
  In (mkSample 0 100 2.25 50 (codes "1F06AD2"))
     (decode_payload (example_row 0 (codes "1F06AD2")))
  /\ 0 <= Battery_Pct (mkSample 0 100 2.25 50 (codes "1F06AD2")) <= 255.
Proof.
  assert (H : In (mkSample 0 100 2.25 50 (codes "1F06AD2"))
                 (decode_payload (example_row 0 (codes "1F06AD2"))))
    by (vm_compute; left; reflexivity).
  split; [exact H|].
  exact (proj1 (proj2 (battery_pct_is_raw_byte _ _ H))).
Defined.





Lemma volt_error_within_spec k v :
  volt_error_within k v = true ->
  exists q, Q_of_float (voltage_of v) = Some q /\
            (Qabs (q - (inject_Z v * (1 # 80) + 1)) <= 1 # k)%Q.
Proof.
  unfold volt_error_within.
  destruct (Q_of_float (voltage_of v)) as [q|]; [|discriminate].
  intros H. exists q. split; [reflexivity|]. apply Qle_bool_iff, H.
Qed.

(** C8: the voltage of every decoded sample is [v * 0.0125 + 1.0],
    evaluated in binary64 arithmetic, for [v] the first payload byte; the
    result lies within [2^-50] of the exact value [v/80 + 1]; byte 0 gives
    exactly 1.0 and byte 200 exactly 3.5, also as the five voltages of a
    row whose payload starts with 00 or C8 (for an instant at least eight
    minutes after the smallest [Timestamp]). *)
Theorem voltage_linear :
  (forall row r, In r (decode_payload row) ->
     let v := byte_at (re_sub_nonhex (Data row)) 0 in
     Voltage_V r = (float_of_Z v * 0.0125 + 1.0)%float /\
     exists q, Q_of_float (Voltage_V r) = Some q /\
               (Qabs (q - (inject_Z v * (1 # 80) + 1)) <= 1 # 2 ^ 50)%Q) /\
  voltage_of 0 = 1.0%float /\
  voltage_of 200 = 3.5%float /\
  (forall t dev,
     representable (mkRow (codes "00320064012C01F401900258") dev t) ->
     map Voltage_V
         (decode_payload (mkRow (codes "00320064012C01F401900258") dev t))
     = [1.0; 1.0; 1.0; 1.0; 1.0]%float) /\
  (forall t dev,
     representable (mkRow (codes "C8320064012C01F401900258") dev t) ->
     map Voltage_V
         (decode_payload (mkRow (codes "C8320064012C01F401900258") dev t))
     = [3.5; 3.5; 3.5; 3.5; 3.5]%float).
Proof.
  split; [|split; [|split; [|split]]].
  - intros row r Hin v.
    pose proof (decode_payload_nonempty _ _ Hin) as Hl.
    destruct (In_decode_payload _ _ Hin) as [i [Hi ->]].
    unfold decoded_sample. cbn [Voltage_V]. fold v.
    split; [reflexivity|].
    apply volt_error_within_spec.
    pose proof volt_error_bytes as Hall. rewrite forallb_forall in Hall.
    apply Hall, byte_is_listed. apply byte_at_range.
    + apply re_sub_nonhex_all_hex.
    + lia.
  - vm_compute. reflexivity.
  - vm_compute. reflexivity.
  - intros t dev Hrep.
    rewrite decode_payload_long;
      [reflexivity | vm_compute; lia | apply representable_in_window, Hrep].
  - intros t dev Hrep.
    rewrite decode_payload_long;
      [reflexivity | vm_compute; lia | apply representable_in_window, Hrep].
Qed.

Lemma voltage_linear_witness :
  In (mkSample 0 100 2.25 50 []) (decode_payload (example_row 0 [])) /\
  Voltage_V (mkSample 0 100 2.25 50 [])
  = (float_of_Z (byte_at (re_sub_nonhex (Data (example_row 0 []))) 0)
     * 0.0125 + 1.0)%float.
Proof.
  assert (H : In (mkSample 0 100 2.25 50 [])
                 (decode_payload (example_row 0 [])))
    by (vm_compute; left; reflexivity).
  split; [exact H|].
  exact (proj1 (proj1 voltage_linear _ _ H)).
Defined.

(** ** Only the first 24 hex digits matter *)

Lemma digit_at_firstn s k :
  (k < 24)%nat -> digit_at (firstn 24 s) k = digit_at s k.
Proof.
  intros Hk. unfold digit_at. rewrite nth_firstn.
  apply Nat.ltb_lt in Hk. rewrite Hk. reflexivity.
Qed.

Lemma byte_at_firstn s k :
  (k < 12)%nat -> byte_at (firstn 24 s) k = byte_at s k.
Proof.
  intros Hk. unfold byte_at. rewrite !digit_at_firstn by lia. reflexivity.
Qed.

Lemma all_hex_firstn n s : all_hex s -> all_hex (firstn n s).
Proof.
  unfold all_hex. intros H. revert n.
  induction H as [|c t Hc _ IH]; intros [|n]; simpl; constructor.
  - exact Hc.
  - apply IH.
Qed.

Lemma decode_payload_prefix row :
  decode_payload row
  = decode_payload (mkRow (firstn 24 (re_sub_nonhex (Data row)))
                          (DeviceID row) (Timestamp row)).
Proof.
  set (s := re_sub_nonhex (Data row)).
  assert (Hp : re_sub_nonhex (firstn 24 s) = firstn 24 s).
  { apply re_sub_nonhex_fixed, all_hex_firstn, re_sub_nonhex_all_hex. }
  rewrite !decode_payload_cases. cbn [Data]. fold s. rewrite Hp.
  change (in_window (mkRow (firstn 24 s) (DeviceID row) (Timestamp row)))
    with (in_window row).
  destruct (Nat.lt_ge_cases (List.length s) 24) as [Hlt|Hge].
  - rewrite firstn_all2 by lia. reflexivity.
  - assert (E1 : (24 <=? List.length s)%nat = true) by (apply Nat.leb_le, Hge).
    assert (E2 : (24 <=? List.length (firstn 24 s))%nat = true).
    { apply Nat.leb_le. rewrite length_firstn. lia. }
    rewrite E1, E2. destruct (in_window row); [|reflexivity]. simpl andb.
    apply map_ext_in. intros i Hi.
    unfold range in Hi. apply in_seq in Hi.
    unfold decoded_sample. cbn [Timestamp DeviceID].
    rewrite !byte_at_firstn by lia. reflexivity.
Qed.

(** C10: every decoded sample has a distance in 0..65535, a voltage in
    [1.0, 4.1875] and a battery value in 0..255; the decoded batch is a
    function of the first 24 characters of the normalized payload (with
    the row's instant and device ID), so hex digits after the 24th change
    nothing. *)
Theorem decoded_fields_bounded :
  (forall row r, In r (decode_payload row) ->
     0 <= Distance_mm r <= 65535 /\
     (1.0 <=? Voltage_V r)%float = true /\
     (Voltage_V r <=? 4.1875)%float = true /\
     0 <= Battery_Pct r <= 255) /\
  (forall row1 row2,
     firstn 24 (re_sub_nonhex (Data row1))
     = firstn 24 (re_sub_nonhex (Data row2)) ->
     DeviceID row1 = DeviceID row2 -> Timestamp row1 = Timestamp row2 ->
     decode_payload row1 = decode_payload row2) /\
  (forall row extra,
     (24 <= List.length (re_sub_nonhex (Data row)))%nat ->
     decode_payload (mkRow (Data row ++ extra) (DeviceID row) (Timestamp row))
     = decode_payload row).
Proof.
  assert (Hprefix : forall row1 row2,
     firstn 24 (re_sub_nonhex (Data row1))
     = firstn 24 (re_sub_nonhex (Data row2)) ->
     DeviceID row1 = DeviceID row2 -> Timestamp row1 = Timestamp row2 ->
     decode_payload row1 = decode_payload row2).
  { intros row1 row2 Hd Hdev Ht.
    rewrite (decode_payload_prefix row1), (decode_payload_prefix row2).
    rewrite Hd, Hdev, Ht. reflexivity. }
  split; [|split; [exact Hprefix|]].
  - intros row r Hin.
    pose proof (decode_payload_nonempty _ _ Hin) as Hl.
    destruct (In_decode_payload _ _ Hin) as [i [Hi ->]].
    destruct (decoded_sample_bounds row i Hl Hi) as [Hd [Hb Hv]].
    unfold volt_in_range in Hv. apply andb_true_iff in Hv.
    unfold decoded_sample in *. cbn [Distance_mm Battery_Pct Voltage_V] in *.
    tauto.
  - intros row extra Hl. apply Hprefix; cbn [Data DeviceID Timestamp];
      try reflexivity.
    unfold re_sub_nonhex in *. rewrite filter_app, firstn_app.
    replace (24 - List.length (filter is_hex (Data row)))%nat with 0%nat
      by lia.
    rewrite firstn_O, app_nil_r. reflexivity.
Qed.

Lemma decoded_fields_bounded_witness :
  In (mkSample 0 100 2.25 50 []) (decode_payload (example_row 0 [])) /\
  0 <= Distance_mm (mkSample 0 100 2.25 50 []) <= 65535 /\
  decode_payload (mkRow (Data (example_row 0 []) ++ codes "BEEF") [] 0)
  = decode_payload (example_row 0 []).
Proof.
  assert (H : In (mkSample 0 100 2.25 50 [])
                 (decode_payload (example_row 0 [])))
    by (vm_compute; left; reflexivity).
  assert (Hl : (24 <= List.length
                  (re_sub_nonhex (Data (example_row 0 []))))%nat)
    by (vm_compute; lia).
  split; [exact H|]. split.
  - exact (proj1 (proj1 decoded_fields_bounded _ _ H)).
  - exact (proj2 (proj2 decoded_fields_bounded) (example_row 0 [])
                 (codes "BEEF") Hl).
Defined.

(** ** Claims about the row parser *)

Lemma lstrip_no_leading_space s : no_leading_space (lstrip s).
Proof.
  induction s as [|c t IH]; simpl.
  - exact I.
  - destruct (is_space c) eqn:E; [exact IH | exact E].
Qed.

Lemma lstrip_app_last u c :
  is_space c = false -> lstrip (u ++ [c]) = lstrip u ++ [c].
Proof.
  intros Hc. induction u as [|a u IH]; simpl.
  - rewrite Hc. reflexivity.
  - destruct (is_space a); [exact IH | reflexivity].
Qed.

Lemma In_lstrip c s : In c (lstrip s) -> In c s.
Proof.
  induction s as [|a t IH]; simpl; [tauto|].
  destruct (is_space a); simpl; auto.
Qed.

Lemma In_strip c s : In c (strip s) -> In c s.
Proof.
  unfold strip, rstrip. intros H.
  apply in_rev, In_lstrip in H. apply in_rev in H.
  apply In_lstrip, H.
Qed.

Lemma strip_no_trailing_space s : no_trailing_space (strip s).
Proof.
  unfold no_trailing_space, strip, rstrip. rewrite rev_involutive.
  apply lstrip_no_leading_space.
Qed.

Lemma strip_no_leading_space s : no_leading_space (strip s).
Proof.
  unfold strip, rstrip.
  pose proof (lstrip_no_leading_space s) as H.
  destruct (lstrip s) as [|c t]; [exact I|].
  simpl in H. simpl rev.
  rewrite lstrip_app_last by exact H.
  rewrite rev_app_distr. simpl. exact H.
Qed.

Lemma remove_char_In x c s : In c (remove_char x s) -> c <> x /\ In c s.
Proof.
  unfold remove_char. intros H. apply filter_In in H.
  destruct H as [Hin Hne]. split; [|exact Hin].
  apply negb_true_iff, Z.eqb_neq in Hne. exact Hne.
Qed.

Lemma remove_char_absent x s :
  (forall c, In c s -> c <> x) -> remove_char x s = s.
Proof.
  unfold remove_char. induction s as [|a t IH]; intros H; simpl.
  - reflexivity.
  - assert (Ha : a <> x) by (apply H; left; reflexivity).
    apply Z.eqb_neq in Ha. rewrite Ha. simpl.
    rewrite IH; [reflexivity|]. intros c Hc. apply H. right. exact Hc.
Qed.

Lemma clean_quote_free p : quote_free (clean p).
Proof.
  unfold quote_free, clean. intros c Hc.
  apply remove_char_In in Hc. destruct Hc as [Hs Hc].
  apply remove_char_In in Hc. tauto.
Qed.

Lemma clean_as_filter p :
  clean p = filter (fun c => negb ((c =? dquote) || (c =? squote))) (strip p).
Proof.
  unfold clean, remove_char.
  induction (strip p) as [|a t IH]; simpl; [reflexivity|].
  destruct (a =? dquote) eqn:E1; simpl.
  - exact IH.
  - destruct (a =? squote) eqn:E2; simpl; rewrite IH; reflexivity.
Qed.

Lemma lstrip_all_space_app w s : all_space w -> lstrip (w ++ s) = lstrip s.
Proof.
  unfold all_space. induction 1 as [|c t Hc _ IH]; simpl.
  - reflexivity.
  - rewrite Hc. exact IH.
Qed.

Lemma all_space_rev w : all_space w -> all_space (rev w).
Proof.
  unfold all_space. intros H. apply Forall_forall. intros c Hc.
  rewrite Forall_forall in H. apply H, in_rev, Hc.
Qed.

Lemma strip_wrapped w1 w2 q body :
  all_space w1 -> all_space w2 -> is_space q = false ->
  strip (w1 ++ q :: body ++ q :: w2) = q :: body ++ [q].
Proof.
  intros H1 H2 Hq. unfold strip, rstrip.
  rewrite lstrip_all_space_app by exact H1.
  simpl lstrip. rewrite Hq.
  replace (q :: body ++ q :: w2) with ((q :: body ++ [q]) ++ w2)
    by (simpl; rewrite <- app_assoc; reflexivity).
  rewrite rev_app_distr.
  rewrite lstrip_all_space_app by (apply all_space_rev, H2).
  replace (rev (q :: body ++ [q])) with (q :: rev (q :: body))
    by (simpl; rewrite rev_app_distr; reflexivity).
  simpl lstrip. rewrite Hq.
  simpl rev. rewrite rev_app_distr, rev_involutive. reflexivity.
Qed.

Lemma clean_wrapped w1 w2 q body :
  all_space w1 -> all_space w2 -> q = dquote \/ q = squote ->
  quote_free body ->
  clean (w1 ++ q :: body ++ q :: w2) = body.
Proof.
  intros H1 H2 Hq Hb. unfold clean.
  assert (Hd : remove_char dquote body = body).
  { apply remove_char_absent. intros c Hc. apply (Hb c Hc). }
  assert (Hs : remove_char squote body = body).
  { apply remove_char_absent. intros c Hc. apply (Hb c Hc). }
  rewrite strip_wrapped; try assumption.
  - unfold remove_char in *.
    destruct Hq as [-> | ->]; simpl; unfold char in *;
      rewrite filter_app, Hd; simpl.
    + rewrite app_nil_r. exact Hs.
    + rewrite filter_app, Hs. simpl. apply app_nil_r.
  - destruct Hq as [-> | ->]; reflexivity.
Qed.

(** C4, as the claim states it, fails: blanks enclosed by the quotes are
    at the ends of the field once the quotes are deleted, and the
    stripping has already happened. *)
Lemma cleaned_field_keeps_inner_space :
  ~ (forall line p, In p (clean_parts line) ->
       no_leading_space p /\ no_trailing_space p /\ quote_free p).
Proof.
  intros H.
  specialize (H (codes "' 64320064012C01F401900258 ';1F06AD2;12;2024-05-01 10:00")
                (codes " 64320064012C01F401900258 ")).
  assert (Hin : In (codes " 64320064012C01F401900258 ")
     (clean_parts
        (codes "' 64320064012C01F401900258 ';1F06AD2;12;2024-05-01 10:00")))
    by (vm_compute; left; reflexivity).
  destruct (H Hin) as [Hlead _]. vm_compute in Hlead. discriminate.
Qed.

(** C4, amended: the cleaned field is the field stripped of surrounding
    whitespace and then rid of every single and double quote; it contains
    no quote character; the stripped field has no whitespace at either
    end, and neither has the cleaned field when the field holds no quote
    character; a field made of a quote-free content wrapped in one pair of
    quotes, with whitespace around the quotes, is cleaned to exactly that
    content, whitespace inside the quotes included. *)
Theorem clean_strips_then_unquotes (p : str) :
  clean p = filter (fun c => negb ((c =? dquote) || (c =? squote))) (strip p)
  /\ quote_free (clean p)
  /\ no_leading_space (strip p) /\ no_trailing_space (strip p)
  /\ (forall w1 w2 q body,
        p = w1 ++ q :: body ++ q :: w2 ->
        all_space w1 -> all_space w2 -> q = dquote \/ q = squote ->
        quote_free body -> clean p = body)
  /\ (quote_free p ->
      clean p = strip p /\
      no_leading_space (clean p) /\ no_trailing_space (clean p)).
Proof.
  split; [apply clean_as_filter|].
  split; [apply clean_quote_free|].
  split; [apply strip_no_leading_space|].
  split; [apply strip_no_trailing_space|].
  split; [intros w1 w2 q body ->; apply clean_wrapped|].
  intros Hq.
  assert (E : clean p = strip p).
  { unfold clean. rewrite (remove_char_absent dquote).
    - apply remove_char_absent. intros c Hc.
      apply In_strip in Hc. apply (Hq c Hc).
    - intros c Hc. apply In_strip in Hc. apply (Hq c Hc). }
  rewrite E. split; [reflexivity|].
  split; [apply strip_no_leading_space | apply strip_no_trailing_space].
Qed.

Lemma clean_strips_then_unquotes_witness :
  quote_free (codes "  1F06AD2 ") /\
  clean (codes "  1F06AD2 ") = strip (codes "  1F06AD2 ") /\
  clean (codes " ' 1F06AD2 '  ") = codes " 1F06AD2 ".
Proof.
  assert (H : quote_free (codes "  1F06AD2 ")).
  { intros c Hc. vm_compute in Hc.
    repeat (destruct Hc as [Hc|Hc]; [subst c; split; discriminate|]).
    destruct Hc. }
  assert (Hb : quote_free (codes " 1F06AD2 ")).
  { intros c Hc. vm_compute in Hc.
    repeat (destruct Hc as [Hc|Hc]; [subst c; split; discriminate|]).
    destruct Hc. }
  split; [exact H|]. split.
  - exact (proj1 (proj2 (proj2 (proj2 (proj2 (proj2
             (clean_strips_then_unquotes (codes "  1F06AD2 ")))))) H)).
  - apply (proj1 (proj2 (proj2 (proj2 (proj2
             (clean_strips_then_unquotes (codes " ' 1F06AD2 '  "))))))
             (codes " ") (codes "  ") squote (codes " 1F06AD2 ")).
    + reflexivity.
    + repeat constructor.
    + repeat constructor.
    + right. reflexivity.
    + exact Hb.
Defined.

Lemma clean_parts_long_nonempty line :
  (4 <= List.length (clean_parts line))%nat -> strip line <> [].
Proof.
  unfold clean_parts. intros H E. rewrite E in H. simpl in H. lia.
Qed.

Lemma load_data_loop_app lines acc :
  load_data_loop lines acc
  = acc ++ flat_map (fun line => match parse_line line with
                                 | Some r => [r]
                                 | None => []
                                 end) lines.
Proof.
  revert acc. induction lines as [|line rest IH]; intros acc; simpl.
  - rewrite app_nil_r. reflexivity.
  - destruct (parse_line line) as [r|]; rewrite IH.
    + rewrite <- app_assoc. reflexivity.
    + reflexivity.
Qed.

(** C5: among the lines with at least four cleaned fields, a line is
    skipped exactly when its first field contains Data and its last field
    contains Timestamp; every other such line is appended as the row made
    of its first, second and last fields; the table holds the rows of the
    accepted lines in file order. *)
Theorem header_rule :
  (forall line,
     (4 <= List.length (clean_parts line))%nat ->
     let cp := clean_parts line in
     let header := contains (codes "Data") (nth 0 cp []) = true /\
                   contains (codes "Timestamp") (last cp []) = true in
     (parse_line line = None <-> header) /\
     (~ header ->
      parse_line line = Some (mkRawRow (nth 0 cp []) (nth 1 cp []) (last cp []))))
  /\
  (forall lines,
     load_data lines
     = flat_map (fun line => match parse_line line with
                             | Some r => [r]
                             | None => []
                             end) lines).
Proof.
  split.
  - intros line Hlen cp header.
    pose proof (clean_parts_long_nonempty line Hlen) as Hne.
    assert (E : parse_line line
                = if is_header (nth 0 cp []) (last cp []) then None
                  else Some (mkRawRow (nth 0 cp []) (nth 1 cp []) (last cp []))).
    { unfold parse_line. fold cp.
      destruct (strip line) as [|c t]; [congruence|].
      apply Nat.leb_le in Hlen. fold cp in Hlen. rewrite Hlen. reflexivity. }
    rewrite E. subst header. unfold is_header.
    destruct (contains (codes "Data") (nth 0 cp [])) eqn:E1;
      destruct (contains (codes "Timestamp") (last cp [])) eqn:E2; simpl;
      split; try split; try tauto; try discriminate;
      intros; try reflexivity; intuition discriminate.
  - intros lines. unfold load_data. apply load_data_loop_app.
Qed.

Lemma header_rule_witness :
  (4 <= List.length (clean_parts
     (codes "Data64320064012C01F401900258;1F06AD2;12;Timestamp 2024-05-01")))%nat
  /\ parse_line
       (codes "Data64320064012C01F401900258;1F06AD2;12;Timestamp 2024-05-01")
     = None
  /\ parse_line (codes "'64320064012C01F401900258';'1F06AD2';'12';'2024-05-01'")
     = Some (mkRawRow (codes "64320064012C01F401900258") (codes "1F06AD2")
                      (codes "2024-05-01")).
Proof.
  assert (H1 : (4 <= List.length (clean_parts
     (codes "Data64320064012C01F401900258;1F06AD2;12;Timestamp 2024-05-01")))%nat)
    by (vm_compute; lia).
  assert (H2 : (4 <= List.length (clean_parts
     (codes "'64320064012C01F401900258';'1F06AD2';'12';'2024-05-01'")))%nat)
    by (vm_compute; lia).
  split; [exact H1|]. split.
  - apply (proj1 (proj1 header_rule _ H1)).
    split; vm_compute; reflexivity.
  - rewrite (proj2 (proj1 header_rule _ H2)).
    + vm_compute. reflexivity.
    + intros [Hd _]. vm_compute in Hd. discriminate.
Defined.

(** ** The decoding loop *)

Lemma collect_app rows acc :
  collect rows acc = acc ++ flat_map decode_payload rows.
Proof.
  revert acc. induction rows as [|row rest IH]; intros acc; simpl.
  - rewrite app_nil_r. reflexivity.
  - rewrite IH, <- app_assoc. reflexivity.
Qed.

(** ** Insertion sorts meet the contract of [sort_values] *)

Lemma ts_le_trans : Relations_1.Transitive ts_le.
Proof. intros a b c. unfold ts_le. lia. Qed.

Section InsertionSort.

Variable before : Z -> Z -> bool.
Hypothesis before_true : forall a b, before a b = true -> a <= b.
Hypothesis before_false : forall a b, before a b = false -> b <= a.

Lemma insert_by_perm x l : Permutation (x :: l) (insert_by before x l).
Proof.
  induction l as [|y t IH]; simpl.
  - apply Permutation_refl.
  - destruct (before (Timestamp_JST x) (Timestamp_JST y)).
    + apply Permutation_refl.
    + eapply perm_trans; [apply perm_swap|]. apply perm_skip, IH.
Qed.

Lemma insert_by_hdrel a x l :
  ts_le a x -> HdRel ts_le a l -> HdRel ts_le a (insert_by before x l).
Proof.
  intros Hax Hl. destruct l as [|y t]; simpl.
  - constructor. exact Hax.
  - destruct (before (Timestamp_JST x) (Timestamp_JST y)).
    + constructor. exact Hax.
    + inversion Hl; subst. constructor. assumption.
Qed.

Lemma insert_by_sorted x l :
  Sorted ts_le l -> Sorted ts_le (insert_by before x l).
Proof.
  induction 1 as [|y t Hs IH Hh]; simpl.
  - repeat constructor.
  - destruct (before (Timestamp_JST x) (Timestamp_JST y)) eqn:E.
    + constructor; [constructor; assumption|].
      constructor. apply before_true, E.
    + constructor; [exact IH|].
      apply insert_by_hdrel; [|exact Hh].
      apply before_false, E.
Qed.

Lemma isort_by_perm l : Permutation l (isort_by before l).
Proof.
  induction l as [|x t IH]; simpl.
  - apply perm_nil.
  - eapply perm_trans; [apply perm_skip, IH | apply insert_by_perm].
Qed.

Lemma isort_by_sorted l : StronglySorted ts_le (isort_by before l).
Proof.
  apply Sorted_StronglySorted; [exact ts_le_trans|].
  induction l as [|x t IH]; simpl.
  - constructor.
  - apply insert_by_sorted, IH.
Qed.

End InsertionSort.

Lemma leb_true a b : (a <=? b) = true -> a <= b.
Proof. apply Z.leb_le. Qed.

Lemma leb_false a b : (a <=? b) = false -> b <= a.
Proof. intros H. apply Z.leb_gt in H. lia. Qed.

Lemma ltb_true a b : (a <? b) = true -> a <= b.
Proof. intros H. apply Z.ltb_lt in H. lia. Qed.

Lemma ltb_false a b : (a <? b) = false -> b <= a.
Proof. apply Z.ltb_ge. Qed.

(** A sorter that keeps equal keys in input order, and one that reverses
    them; both put the keys in ascending order. *)
Definition keeping_sorter : Sorter :=
  mkSorter (isort_by Z.leb)
           (isort_by_perm Z.leb)
           (isort_by_sorted Z.leb leb_true leb_false).

Definition reversing_sorter : Sorter :=
  mkSorter (isort_by Z.ltb)
           (isort_by_perm Z.ltb)
           (isort_by_sorted Z.ltb ltb_true ltb_false).

(** The contract leaves the order of ties open: the first sorter keeps
    them in input order. *)
Lemma insert_by_leb_ties t x l :
  filter (fun r => Timestamp_JST r =? t) (insert_by Z.leb x l)
  = filter (fun r => Timestamp_JST r =? t) (x :: l).
Proof.
  induction l as [|y l' IH]; [reflexivity|].
  simpl insert_by.
  destruct (Timestamp_JST x <=? Timestamp_JST y) eqn:E; [reflexivity|].
  apply Z.leb_gt in E.
  change (filter (fun r => Timestamp_JST r =? t) (y :: insert_by Z.leb x l'))
    with (if Timestamp_JST y =? t
          then y :: filter (fun r => Timestamp_JST r =? t) (insert_by Z.leb x l')
          else filter (fun r => Timestamp_JST r =? t) (insert_by Z.leb x l')).
  rewrite IH. simpl.
  destruct (Timestamp_JST x =? t) eqn:Ex;
    destruct (Timestamp_JST y =? t) eqn:Ey; try reflexivity.
  apply Z.eqb_eq in Ex, Ey. lia.
Qed.

Lemma keeping_sorter_ties l :
  ties_in_input_order l (sort_values keeping_sorter l).
Proof.
  intros t. simpl. induction l as [|x l' IH]; [reflexivity|].
  simpl isort_by. rewrite insert_by_leb_ties. simpl. rewrite IH.
  reflexivity.
Qed.

(** ** Claims about the assembled series *)





(** ** The assembled series on concrete inputs *)

Example one_row_series :
  option_map (map (fun r => (Timestamp_JST r, Distance_mm r)))
             (main_series keeping_sorter [example_row 600000000000 []])
  = Some [ (120000000000, 600); (240000000000, 400); (360000000000, 500);
           (480000000000, 300); (600000000000, 100) ].
Proof. reflexivity. Qed.

Example no_valid_packet :
  main_series keeping_sorter [mkRow (codes "6432") [] 0] = None.
Proof. reflexivity. Qed.

Example sorters_differ_on_ties :
  option_map (map Distance_mm) (main_series keeping_sorter tied_rows)
  <> option_map (map Distance_mm) (main_series reversing_sorter tied_rows).
Proof. vm_compute. discriminate. Qed.

(** * Further properties *)

(** ** The row parser on whole lines *)

Lemma lstrip_all_space w : all_space w -> lstrip w = [].
Proof.
  intros H. rewrite <- (app_nil_r w). rewrite lstrip_all_space_app by exact H.
  reflexivity.
Qed.

Lemma rstrip_app_all_space s w : all_space w -> rstrip (s ++ w) = rstrip s.
Proof.
  intros H. unfold rstrip. rewrite rev_app_distr.
  rewrite lstrip_all_space_app by (apply all_space_rev, H). reflexivity.
Qed.

Lemma strip_app_all_space s w : all_space w -> strip (s ++ w) = strip s.
Proof.
  intros H. unfold strip. induction s as [|c t IH]; simpl.
  - rewrite lstrip_all_space by exact H. reflexivity.
  - destruct (is_space c); [exact IH|].
    apply (rstrip_app_all_space (c :: t) w H).
Qed.

Lemma strip_outer_space w1 s w2 :
  all_space w1 -> all_space w2 -> strip (w1 ++ s ++ w2) = strip s.
Proof.
  intros H1 H2. rewrite app_assoc, strip_app_all_space by exact H2.
  unfold strip. rewrite lstrip_all_space_app by exact H1. reflexivity.
Qed.

Lemma parse_line_strip line1 line2 :
  strip line1 = strip line2 -> parse_line line1 = parse_line line2.
Proof.
  intros E. unfold parse_line, clean_parts. rewrite E. reflexivity.
Qed.

(** X1: whitespace in front of a line and behind it (indentation, the line
    terminator) changes neither whether the line is kept nor the row it
    gives. *)
Theorem parse_line_ignores_outer_space (w1 line w2 : str) :
  all_space w1 -> all_space w2 ->
  parse_line (w1 ++ line ++ w2) = parse_line line.
Proof.
  intros H1 H2. apply parse_line_strip, strip_outer_space; assumption.
Qed.

Lemma parse_line_ignores_outer_space_witness :
  all_space (codes "  ") /\ all_space [13; 10] /\
  parse_line (codes "  " ++ data_line ++ [13; 10]) = parse_line data_line.
Proof.
  assert (H1 : all_space (codes "  ")) by (repeat constructor).
  assert (H2 : all_space [13; 10]) by (repeat constructor).
  split; [exact H1|]. split; [exact H2|].
  exact (parse_line_ignores_outer_space _ data_line _ H1 H2).
Defined.

Lemma split_length sep s :
  List.length (split sep s)
  = S (List.length (filter (fun c => c =? sep) s)).
Proof.
  induction s as [|c t IH]; simpl; [reflexivity|].
  destruct (c =? sep); simpl.
  - rewrite IH. reflexivity.
  - destruct (split sep t) as [|f fs]; simpl in *; [discriminate|exact IH].
Qed.

Lemma clean_parts_length line :
  List.length (clean_parts line) = S (semicolons (strip line)).
Proof.
  unfold clean_parts, semicolons. rewrite length_map. apply split_length.
Qed.

(** X2: a line is kept only if, once stripped, it holds at least three
    semicolons; blank lines and lines with fewer than four fields give no
    row. *)
Theorem parse_line_short_line (line : str) :
  (semicolons (strip line) < 3)%nat -> parse_line line = None.
Proof.
  intros H. unfold parse_line.
  destruct (strip line) as [|c t] eqn:E; [reflexivity|].
  pose proof (clean_parts_length line) as Hlen. rewrite E in Hlen.
  destruct (4 <=? List.length (clean_parts line))%nat eqn:E4.
  - apply Nat.leb_le in E4. lia.
  - reflexivity.
Qed.

Lemma parse_line_short_line_witness :
  (semicolons (strip (codes " 64320064012C01F401900258;1F06AD2;12 ")) < 3)%nat
  /\ parse_line (codes " 64320064012C01F401900258;1F06AD2;12 ") = None.
Proof.
  assert (H : (semicolons
                 (strip (codes " 64320064012C01F401900258;1F06AD2;12 ")) < 3)%nat)
    by (vm_compute; lia).
  split; [exact H|]. exact (parse_line_short_line _ H).
Defined.

Lemma split_sep_free sep s p : In p (split sep s) -> ~ In sep p.
Proof.
  revert p. induction s as [|c t IH]; simpl; intros p Hp.
  - destruct Hp as [<-|[]]. intros [].
  - destruct (c =? sep) eqn:E.
    + destruct Hp as [<-|Hp]; [intros []|]. apply IH, Hp.
    + apply Z.eqb_neq in E.
      destruct (split sep t) as [|f fs] eqn:Es.
      * destruct Hp as [<-|[]]. intros [H|[]]. congruence.
      * destruct Hp as [<-|Hp].
        -- intros [H|H]; [congruence|].
           apply (IH f); [left; reflexivity | exact H].
        -- apply IH. right. exact Hp.
Qed.

Lemma In_clean c p : In c (clean p) -> In c p.
Proof.
  unfold clean. intros H.
  apply remove_char_In in H. destruct H as [_ H].
  apply remove_char_In in H. destruct H as [_ H].
  apply In_strip, H.
Qed.

Lemma clean_parts_field line f :
  In f (clean_parts line) -> quote_free f /\ sep_free f.
Proof.
  unfold clean_parts. intros H. apply in_map_iff in H.
  destruct H as [p [<- Hp]]. split.
  - apply clean_quote_free.
  - intros Hc. apply In_clean in Hc.
    exact (split_sep_free _ _ _ Hp Hc).
Qed.

Lemma last_In (l : list str) d : l <> [] -> In (last l d) l.
Proof.
  induction l as [|x t IH]; [congruence|]. intros _.
  destruct t as [|y t']; [left; reflexivity|].
  right. apply IH. discriminate.
Qed.

Lemma parse_line_Some line r :
  parse_line line = Some r ->
  (4 <= List.length (clean_parts line))%nat /\
  r = mkRawRow (nth 0 (clean_parts line) []) (nth 1 (clean_parts line) [])
               (last (clean_parts line) []) /\
  is_header (raw_Data r) (raw_Timestamp r) = false.
Proof.
  unfold parse_line. destruct (strip line); [discriminate|].
  destruct (4 <=? List.length (clean_parts line))%nat eqn:E4; [|discriminate].
  destruct (is_header _ _) eqn:Eh; [discriminate|].
  intros H. inversion H; subst; clear H. simpl.
  apply Nat.leb_le in E4. auto.
Qed.

Lemma In_load_data lines r :
  In r (load_data lines) <->
  exists line, In line lines /\ parse_line line = Some r.
Proof.
  unfold load_data. rewrite load_data_loop_app. simpl.
  rewrite in_flat_map. split.
  - intros [line [Hl Hr]]. exists line. split; [exact Hl|].
    destruct (parse_line line) as [r'|]; [|destruct Hr].
    destruct Hr as [->|[]]. reflexivity.
  - intros [line [Hl Hr]]. exists line. split; [exact Hl|].
    rewrite Hr. left. reflexivity.
Qed.

(** X3: no row of the table made by [load_data] holds a quote character
    or a semicolon in any of its three fields, and none is a header row
    (Data in the first field together with Timestamp in the last). *)
Theorem load_data_rows_clean (lines : list str) (r : RawRow) :
  In r (load_data lines) ->
  (quote_free (raw_Data r) /\ sep_free (raw_Data r)) /\
  (quote_free (raw_DeviceID r) /\ sep_free (raw_DeviceID r)) /\
  (quote_free (raw_Timestamp r) /\ sep_free (raw_Timestamp r)) /\
  ~ (contains (codes "Data") (raw_Data r) = true /\
     contains (codes "Timestamp") (raw_Timestamp r) = true).
Proof.
  intros Hin. apply In_load_data in Hin. destruct Hin as [line [_ Hp]].
  apply parse_line_Some in Hp. destruct Hp as [Hlen [-> Hh]]. simpl in *.
  assert (Hne : clean_parts line <> []).
  { intros E. rewrite E in Hlen. simpl in Hlen. lia. }
  split; [apply (clean_parts_field line), nth_In; lia|].
  split; [apply (clean_parts_field line), nth_In; lia|].
  split; [apply (clean_parts_field line), last_In, Hne|].
  intros [H1 H2]. unfold is_header in Hh. rewrite H1, H2 in Hh. discriminate.
Qed.

Lemma load_data_rows_clean_witness :
  In (mkRawRow example_payload (codes "1F06AD2") (codes "2024-05-01 10:00:00"))
     (load_data [header_line; data_line]) /\
  quote_free (raw_Timestamp
    (mkRawRow example_payload (codes "1F06AD2") (codes "2024-05-01 10:00:00"))).
Proof.
  assert (H : In (mkRawRow example_payload (codes "1F06AD2")
                           (codes "2024-05-01 10:00:00"))
                 (load_data [header_line; data_line]))
    by (vm_compute; left; reflexivity).
  split; [exact H|].
  exact (proj1 (proj1 (proj2 (proj2 (load_data_rows_clean _ _ H))))).
Defined.

(** X4: the table of a file is the table of its first part followed by
    the table of the rest; a skipped line (a header, a blank or a short
    line) may stand anywhere without changing the table; the table never
    has more rows than the file has lines. *)
Theorem load_data_app :
  (forall lines1 lines2,
     load_data (lines1 ++ lines2) = load_data lines1 ++ load_data lines2) /\
  (forall lines, (List.length (load_data lines) <= List.length lines)%nat) /\
  (forall lines1 line lines2,
     parse_line line = None ->
     load_data (lines1 ++ line :: lines2) = load_data (lines1 ++ lines2)).
Proof.
  assert (Happ : forall lines1 lines2,
     load_data (lines1 ++ lines2) = load_data lines1 ++ load_data lines2).
  { intros lines1 lines2. unfold load_data.
    rewrite !load_data_loop_app. simpl. apply flat_map_app. }
  split; [exact Happ|]. split.
  - intros lines. unfold load_data. rewrite load_data_loop_app. simpl.
    induction lines as [|line rest IH]; simpl; [lia|].
    rewrite length_app. destruct (parse_line line); simpl; lia.
  - intros lines1 line lines2 Hskip. rewrite !Happ. f_equal.
    unfold load_data. simpl. rewrite Hskip. reflexivity.
Qed.

Lemma load_data_app_witness :
  parse_line header_line = None /\
  load_data ([data_line] ++ header_line :: [data_line])
  = load_data ([data_line] ++ [data_line]).
Proof.
  assert (H : parse_line header_line = None) by reflexivity.
  split; [exact H|].
  exact (proj2 (proj2 load_data_app) [data_line] header_line [data_line] H).
Defined.

Lemma split_sep_free_id sep f : ~ In sep f -> split sep f = [f].
Proof.
  induction f as [|c t IH]; simpl; intros H; [reflexivity|].
  destruct (c =? sep) eqn:E.
  - apply Z.eqb_eq in E. exfalso. apply H. left. exact E.
  - rewrite IH by (intros Hc; apply H; right; exact Hc). reflexivity.
Qed.

Lemma split_app_sep sep f s :
  ~ In sep f -> split sep (f ++ sep :: s) = f :: split sep s.
Proof.
  induction f as [|c t IH]; simpl; intros H.
  - rewrite Z.eqb_refl. reflexivity.
  - destruct (c =? sep) eqn:E.
    + apply Z.eqb_eq in E. exfalso. apply H. left. exact E.
    + rewrite IH by (intros Hc; apply H; right; exact Hc). reflexivity.
Qed.

Lemma split_joined gs :
  gs <> [] -> Forall sep_free gs -> split semicolon (joined gs) = gs.
Proof.
  intros Hne Hall. induction Hall as [|g rest Hg Hrest IH]; [congruence|].
  destruct rest as [|g' rest'].
  - simpl. apply split_sep_free_id, Hg.
  - change (joined (g :: g' :: rest'))
      with (g ++ semicolon :: joined (g' :: rest')).
    rewrite split_app_sep by exact Hg.
    rewrite IH by discriminate. reflexivity.
Qed.

Lemma joined_ends gs :
  gs <> [] -> exists u, joined gs = u ++ last gs [].
Proof.
  induction gs as [|g rest IH]; [congruence|]. intros _.
  destruct rest as [|g' rest'].
  - exists []. reflexivity.
  - destruct IH as [u Hu]; [discriminate|].
    exists (g ++ semicolon :: u).
    change (joined (g :: g' :: rest'))
      with (g ++ semicolon :: joined (g' :: rest')).
    rewrite Hu, <- app_assoc. reflexivity.
Qed.

Lemma strip_fixed s :
  no_leading_space s -> no_trailing_space s -> strip s = s.
Proof.
  unfold no_trailing_space, strip, rstrip. intros Hl Ht.
  assert (El : lstrip s = s).
  { destruct s as [|c t]; [reflexivity|]. simpl in *. rewrite Hl. reflexivity. }
  rewrite El.
  assert (Er : lstrip (rev s) = rev s).
  { destruct (rev s) as [|c t]; [reflexivity|]. simpl in *.
    rewrite Ht. reflexivity. }
  rewrite Er. apply rev_involutive.
Qed.

Lemma strip_joined_wrapped fs :
  fs <> [] -> strip (joined (map wrap fs)) = joined (map wrap fs).
Proof.
  intros Hne. apply strip_fixed.
  - destruct fs as [|f [|f' rest]]; [congruence| |]; reflexivity.
  - assert (Hm : map wrap fs <> []) by (destruct fs; [congruence|discriminate]).
    destruct (joined_ends (map wrap fs) Hm) as [u Hu].
    pose proof (last_In (map wrap fs) [] Hm) as Hl.
    apply in_map_iff in Hl. destruct Hl as [f [Hf _]].
    unfold no_trailing_space. rewrite Hu, <- Hf. unfold wrap.
    rewrite rev_app_distr. simpl. rewrite rev_app_distr. reflexivity.
Qed.

Lemma clean_wrap_fields fs :
  Forall quote_free fs -> map clean (map wrap fs) = fs.
Proof.
  induction 1 as [|f rest Hf _ IH]; simpl; [reflexivity|].
  rewrite IH. f_equal.
  apply (clean_wrapped [] [] dquote f).
  - constructor.
  - constructor.
  - left. reflexivity.
  - exact Hf.
Qed.

Lemma wrap_sep_free f : sep_free f -> sep_free (wrap f).
Proof.
  unfold sep_free, wrap. intros H [Hc|Hc]; [discriminate|].
  apply in_app_or in Hc. destruct Hc as [Hc|[Hc|[]]]; [tauto|discriminate].
Qed.

(** X5: a line of the export, four or more fields each between double
    quotes and joined by semicolons, gives back the first, second and last
    field exactly as written between the quotes (inner blanks included),
    provided no field holds a quote or a semicolon and the line is not a
    header; the line terminator does not matter. *)
Theorem parse_line_quoted_fields (fs : list str) (w : str) :
  (4 <= List.length fs)%nat ->
  Forall quote_free fs -> Forall sep_free fs -> all_space w ->
  is_header (nth 0 fs []) (last fs []) = false ->
  parse_line (joined (map wrap fs) ++ w)
  = Some (mkRawRow (nth 0 fs []) (nth 1 fs []) (last fs [])).
Proof.
  intros Hlen Hq Hs Hw Hh.
  assert (Hne : fs <> []) by (intros E; rewrite E in Hlen; simpl in Hlen; lia).
  rewrite (parse_line_strip _ (joined (map wrap fs)))
    by (apply strip_app_all_space, Hw).
  assert (Ecp : clean_parts (joined (map wrap fs)) = fs).
  { unfold clean_parts. rewrite strip_joined_wrapped by exact Hne.
    rewrite split_joined.
    - apply clean_wrap_fields, Hq.
    - destruct fs; [congruence|discriminate].
    - clear -Hs. induction Hs; simpl; constructor;
        [apply wrap_sep_free; assumption | assumption]. }
  unfold parse_line. rewrite Ecp, strip_joined_wrapped by exact Hne.
  destruct (joined (map wrap fs)) as [|c t] eqn:Ej.
  - destruct fs as [|f [|f' rest]]; [congruence| |]; discriminate.
  - apply Nat.leb_le in Hlen. rewrite Hlen, Hh. reflexivity.
Qed.

Lemma parse_line_quoted_fields_witness :
  (4 <= List.length export_fields)%nat /\
  all_space [13; 10] /\
  is_header (nth 0 export_fields []) (last export_fields []) = false /\
  parse_line (joined (map wrap export_fields) ++ [13; 10])
  = Some (mkRawRow example_payload (codes "1F06AD2")
                   (codes "2024-05-01 10:00:00")).
Proof.
  assert (H4 : (4 <= List.length export_fields)%nat) by (simpl; lia).
  assert (Hw : all_space [13; 10]) by (repeat constructor).
  assert (Hh : is_header (nth 0 export_fields []) (last export_fields [])
               = false) by reflexivity.
  split; [exact H4|]. split; [exact Hw|]. split; [exact Hh|].
  apply (parse_line_quoted_fields export_fields [13; 10] H4).
  - unfold export_fields. repeat apply Forall_cons; try apply Forall_nil;
      intros c Hc; vm_compute in Hc;
      repeat (destruct Hc as [Hc|Hc]; [subst c; split; discriminate|]);
      destruct Hc.
  - unfold export_fields. repeat apply Forall_cons; try apply Forall_nil;
      intros Hc; vm_compute in Hc;
      repeat (destruct Hc as [Hc|Hc]; [discriminate|]); destruct Hc.
  - exact Hw.
  - exact Hh.
Defined.

(** ** The decoder and the wire format *)

Ltac bool_to_prop :=
  repeat match goal with
         | H : (_ && _) = true |- _ => apply andb_true_iff in H; destruct H
         | H : (_ && _) = false |- _ => apply andb_false_iff in H; destruct H
         | H : (_ <=? _) = true |- _ => apply Z.leb_le in H
         | H : (_ <=? _) = false |- _ => apply Z.leb_gt in H
         | H : (_ <? _) = true |- _ => apply Z.ltb_lt in H
         | H : (_ <? _) = false |- _ => apply Z.ltb_ge in H
         end.

Lemma hex_digit_ascii_upper c : hex_digit (ascii_upper c) = hex_digit c.
Proof.
  unfold hex_digit, ascii_upper.
  destruct ((97 <=? c) && (c <=? 122)) eqn:Eu; [|reflexivity].
  repeat match goal with
         | |- context [if ?b then _ else _] => destruct b eqn:?
         end;
    bool_to_prop; first [reflexivity | f_equal; lia | lia].
Qed.

Lemma re_sub_nonhex_upper d :
  re_sub_nonhex (map ascii_upper d) = map ascii_upper (re_sub_nonhex d).
Proof.
  unfold re_sub_nonhex, is_hex. induction d as [|c t IH]; simpl.
  - reflexivity.
  - rewrite hex_digit_ascii_upper.
    destruct (hex_digit c); simpl; rewrite IH; reflexivity.
Qed.

Lemma int16_from_upper acc s :
  int16_from acc (map ascii_upper s) = int16_from acc s.
Proof.
  revert acc. induction s as [|c t IH]; intros acc; simpl.
  - reflexivity.
  - rewrite hex_digit_ascii_upper. destruct (hex_digit c); [apply IH|].
    reflexivity.
Qed.

Lemma int16_slice_upper a b s :
  int16 (slice a b (map ascii_upper s)) = int16 (slice a b s).
Proof.
  unfold slice. rewrite skipn_map, firstn_map. unfold int16.
  destruct (firstn (b - a) (skipn a s)) as [|c t] eqn:E; [reflexivity|].
  rewrite <- E at 1. simpl map. rewrite E.
  apply (int16_from_upper 0 (c :: t)).
Qed.

Lemma decode_body_upper s t dev :
  decode_body (map ascii_upper s) t dev = decode_body s t dev.
Proof.
  unfold decode_body. rewrite !int16_slice_upper.
  destruct (int16 (slice 0 2 s)) as [v|]; [|reflexivity].
  destruct (int16 (slice 2 4 s)) as [b|]; [|reflexivity].
  generalize (range 5). generalize (@nil Sample).
  intros acc idxs. revert acc.
  induction idxs as [|i rest IH]; intros acc; simpl; [reflexivity|].
  unfold extract_one. rewrite int16_slice_upper.
  destruct (int16 (slice (4 + i * 4) (4 + i * 4 + 4) s)); [|reflexivity].
  destruct (Timestamp_sub_minutes t (Z.of_nat i * 2)); [apply IH|].
  reflexivity.
Qed.

Lemma decode_payload_upper d dev t :
  decode_payload (mkRow (map ascii_upper d) dev t)
  = decode_payload (mkRow d dev t).
Proof.
  unfold decode_payload. cbn [Data DeviceID Timestamp].
  rewrite re_sub_nonhex_upper, length_map, decode_body_upper. reflexivity.
Qed.

(** X6: the letter case of the payload does not matter: two rows whose
    payloads differ only in the case of letters decode to the same
    batch. *)
Theorem decode_payload_case_insensitive (d1 d2 dev : str) (t : Z) :
  map ascii_upper d1 = map ascii_upper d2 ->
  decode_payload (mkRow d1 dev t) = decode_payload (mkRow d2 dev t).
Proof.
  intros E.
  rewrite <- (decode_payload_upper d1), <- (decode_payload_upper d2), E.
  reflexivity.
Qed.

Lemma decode_payload_case_insensitive_witness :
  map ascii_upper (codes "64320064012c01f401900258")
  = map ascii_upper (codes "64320064012C01F401900258") /\
  decode_payload (mkRow (codes "64320064012c01f401900258") [] 0)
  = decode_payload (mkRow (codes "64320064012C01F401900258") [] 0).
Proof.
  assert (H : map ascii_upper (codes "64320064012c01f401900258")
              = map ascii_upper (codes "64320064012C01F401900258"))
    by reflexivity.
  split; [exact H|].
  exact (decode_payload_case_insensitive _ _ [] 0 H).
Defined.

Lemma hex_digit_hex_char x :
  0 <= x <= 15 -> hex_digit (hex_char x) = Some x.
Proof.
  intros Hx. unfold hex_digit, hex_char.
  destruct (x <? 10) eqn:E10;
    repeat match goal with
           | |- context [if ?b then _ else _] => destruct b eqn:?
           end;
    bool_to_prop; first [f_equal; lia | lia].
Qed.

Lemma digit_at_hex_char x :
  0 <= x <= 15 ->
  match hex_digit (hex_char x) with Some d => d | None => 0 end = x.
Proof. intros Hx. rewrite hex_digit_hex_char by exact Hx. reflexivity. Qed.

Lemma hex_byte_value b :
  0 <= b <= 255 ->
  16 * match hex_digit (hex_char (b / 16)) with Some d => d | None => 0 end
  + match hex_digit (hex_char (b mod 16)) with Some d => d | None => 0 end
  = b.
Proof.
  intros Hb.
  rewrite !digit_at_hex_char by (Z.div_mod_to_equations; lia).
  Z.div_mod_to_equations. lia.
Qed.

Lemma hex_char_is_hex x : 0 <= x <= 15 -> is_hex (hex_char x) = true.
Proof.
  intros Hx. unfold is_hex. rewrite hex_digit_hex_char by exact Hx.
  reflexivity.
Qed.

Lemma hex_byte_all_hex b : 0 <= b <= 255 -> all_hex (hex_byte b).
Proof.
  intros Hb. unfold all_hex, hex_byte.
  repeat constructor; apply hex_char_is_hex; Z.div_mod_to_equations; lia.
Qed.

Lemma hex_word_all_hex w : 0 <= w <= 65535 -> all_hex (hex_word w).
Proof.
  intros Hw. unfold hex_word, all_hex. apply Forall_app.
  split; apply hex_byte_all_hex; Z.div_mod_to_equations; lia.
Qed.

Lemma hex_word_value w b1 b2 :
  0 <= w <= 65535 -> b1 = w / 256 -> b2 = w mod 256 ->
  256 * b1 + b2 = w /\ 0 <= b1 <= 255 /\ 0 <= b2 <= 255.
Proof. intros Hw -> ->. Z.div_mod_to_equations. lia. Qed.

(** X7: decoding inverts the wire format: for a row whose instant is a
    valid [Timestamp] at least eight minutes after the smallest one, the
    payload written from a voltage byte, a battery byte and five distances
    below 65536 decodes to exactly these values, newest first, so every
    value in these ranges is reachable. *)
Theorem decode_payload_encode (v b d0 d1 d2 d3 d4 t : Z) (dev : str) :
  0 <= v <= 255 -> 0 <= b <= 255 ->
  Forall (fun d => 0 <= d <= 65535) [d0; d1; d2; d3; d4] ->
  Timestamp_min + Timedelta_minutes 8 <= t <= Timestamp_max ->
  decode_payload (mkRow (encode_payload v b [d0; d1; d2; d3; d4]) dev t)
  = [ mkSample t d0 (voltage_of v) b dev;
      mkSample (t - Timedelta_minutes 2) d1 (voltage_of v) b dev;
      mkSample (t - Timedelta_minutes 4) d2 (voltage_of v) b dev;
      mkSample (t - Timedelta_minutes 6) d3 (voltage_of v) b dev;
      mkSample (t - Timedelta_minutes 8) d4 (voltage_of v) b dev ].
Proof.
  intros Hv Hb Hd Ht.
  inversion Hd as [|? ? H0 Hd1]; subst. inversion Hd1 as [|? ? H1 Hd2]; subst.
  inversion Hd2 as [|? ? H2 Hd3]; subst. inversion Hd3 as [|? ? H3 Hd4]; subst.
  inversion Hd4 as [|? ? H4 _]; subst. clear Hd Hd1 Hd2 Hd3 Hd4.
  assert (Hhex : all_hex (encode_payload v b [d0; d1; d2; d3; d4])).
  { unfold encode_payload, all_hex. cbn [flat_map].
    apply Forall_app; split; [apply hex_byte_all_hex, Hv|].
    apply Forall_app; split; [apply hex_byte_all_hex, Hb|].
    apply Forall_app; split; [apply hex_word_all_hex, H0|].
    apply Forall_app; split; [apply hex_word_all_hex, H1|].
    apply Forall_app; split; [apply hex_word_all_hex, H2|].
    apply Forall_app; split; [apply hex_word_all_hex, H3|].
    apply Forall_app; split; [apply hex_word_all_hex, H4|].
    apply Forall_nil. }
  rewrite decode_payload_long;
    [| cbn [Data]; rewrite (re_sub_nonhex_fixed _ Hhex); reflexivity
     | apply representable_in_window; exact Ht].
  cbn [Data Timestamp DeviceID]. rewrite (re_sub_nonhex_fixed _ Hhex).
  destruct (hex_word_value d0 _ _ H0 eq_refl eq_refl) as [E0 [L0 R0]].
  destruct (hex_word_value d1 _ _ H1 eq_refl eq_refl) as [E1 [L1 R1]].
  destruct (hex_word_value d2 _ _ H2 eq_refl eq_refl) as [E2 [L2 R2]].
  destruct (hex_word_value d3 _ _ H3 eq_refl eq_refl) as [E3 [L3 R3]].
  destruct (hex_word_value d4 _ _ H4 eq_refl eq_refl) as [E4 [L4 R4]].
  rewrite range_5.
  cbv [map decoded_sample byte_at digit_at encode_payload hex_word hex_byte
       flat_map app nth Nat.mul Nat.add Data Timestamp DeviceID].
  rewrite !hex_byte_value by assumption.
  rewrite E0, E1, E2, E3, E4.
  replace (t - Timedelta_minutes (Z.of_nat 0 * 2)) with t
    by (unfold Timedelta_minutes; lia).
  reflexivity.
Qed.

Lemma decode_payload_encode_witness :
  0 <= 200 <= 255 /\ 0 <= 87 <= 255 /\
  Forall (fun d => 0 <= d <= 65535) [0; 1; 255; 256; 65535] /\
  map Distance_mm
      (decode_payload (mkRow (encode_payload 200 87 [0; 1; 255; 256; 65535])
                             [] 0))
  = [0; 1; 255; 256; 65535].
Proof.
  assert (Hv : 0 <= 200 <= 255) by lia.
  assert (Hb : 0 <= 87 <= 255) by lia.
  assert (Hd : Forall (fun d => 0 <= d <= 65535) [0; 1; 255; 256; 65535])
    by (repeat constructor; lia).
  assert (Ht : Timestamp_min + Timedelta_minutes 8 <= 0 <= Timestamp_max)
    by (vm_compute; split; discriminate).
  split; [exact Hv|]. split; [exact Hb|]. split; [exact Hd|].
  rewrite (decode_payload_encode 200 87 0 1 255 256 65535 0 [] Hv Hb Hd Ht).
  reflexivity.
Defined.

(** ** The sort when no two samples share a timestamp *)

Lemma sorted_distinct_strict l :
  StronglySorted ts_le l -> NoDup (map Timestamp_JST l) ->
  StronglySorted ts_lt l.
Proof.
  induction 1 as [|x t Hs IH Hall]; intros Hnd; simpl in Hnd.
  - constructor.
  - inversion Hnd as [|? ? Hx Hnd']; subst.
    constructor; [apply IH, Hnd'|].
    rewrite Forall_forall in *. intros y Hy.
    specialize (Hall y Hy). unfold ts_le, ts_lt in *.
    assert (Timestamp_JST x <> Timestamp_JST y).
    { intros E. apply Hx. rewrite E. apply in_map, Hy. }
    lia.
Qed.

Lemma strict_sorted_distinct l :
  StronglySorted ts_lt l -> NoDup (map Timestamp_JST l).
Proof.
  induction 1 as [|x t Hs IH Hall]; simpl; constructor; [|exact IH].
  intros Hin. apply in_map_iff in Hin. destruct Hin as [y [Ey Hy]].
  rewrite Forall_forall in Hall. specialize (Hall y Hy).
  unfold ts_lt in Hall. lia.
Qed.

Lemma strict_sorted_perm_eq l1 l2 :
  StronglySorted ts_lt l1 -> StronglySorted ts_lt l2 ->
  Permutation l1 l2 -> l1 = l2.
Proof.
  intros H1. revert l2. induction H1 as [|x t1 Hs1 IH Hall1]; intros l2 H2 Hp.
  - apply Permutation_nil in Hp. symmetry. exact Hp.
  - destruct H2 as [|y t2 Hs2 Hall2].
    + apply Permutation_sym, Permutation_nil in Hp. discriminate.
    + assert (Hx : In x (y :: t2)).
      { eapply Permutation_in; [exact Hp | left; reflexivity]. }
      assert (Hy : In y (x :: t1)).
      { eapply Permutation_in; [apply Permutation_sym, Hp | left; reflexivity]. }
      rewrite Forall_forall in Hall1, Hall2.
      assert (E : y = x).
      { destruct Hx as [E|Hx]; [exact E|].
        destruct Hy as [E|Hy]; [symmetry; exact E|].
        specialize (Hall1 y Hy). specialize (Hall2 x Hx).
        unfold ts_lt in *. lia. }
      subst y. f_equal. apply IH; [exact Hs2|].
      eapply Permutation_cons_inv. exact Hp.
Qed.

Lemma sort_values_distinct (S : Sorter) l :
  NoDup (map Timestamp_JST l) -> StronglySorted ts_lt (sort_values S l).
Proof.
  intros Hnd. apply sorted_distinct_strict; [apply sort_values_sorted|].
  eapply Permutation_NoDup; [|exact Hnd].
  apply Permutation_map, sort_values_perm.
Qed.

(** X8: when no two samples carry the same timestamp, the assembled
    series does not depend on the sorting algorithm: any two sorts that
    put the rows in ascending order return the same table. *)
Theorem sort_values_unique_without_ties (S1 S2 : Sorter) (l : list Sample) :
  NoDup (map Timestamp_JST l) -> sort_values S1 l = sort_values S2 l.
Proof.
  intros Hnd. apply strict_sorted_perm_eq.
  - apply sort_values_distinct, Hnd.
  - apply sort_values_distinct, Hnd.
  - eapply perm_trans; [apply Permutation_sym, sort_values_perm|].
    apply sort_values_perm.
Qed.



Lemma sort_values_ascending_id (S : Sorter) l :
  StronglySorted ts_lt l -> sort_values S l = l.
Proof.
  intros Hs. apply strict_sorted_perm_eq; [|exact Hs|].
  - apply sort_values_distinct, strict_sorted_distinct, Hs.
  - apply Permutation_sym, sort_values_perm.
Qed.


Lemma decode_payload_descending row : StronglySorted ts_gt (decode_payload row).
Proof.
  rewrite decode_payload_cases.
  destruct ((24 <=? List.length (re_sub_nonhex (Data row)))%nat
            && in_window row); [|constructor].
  rewrite range_5. cbv [map]. unfold ts_gt, decoded_sample.
  repeat (constructor; [|repeat (constructor; [cbn [Timestamp_JST];
                                   unfold Timedelta_minutes; lia|]);
                         constructor]).
  constructor.
Qed.


Lemma descending_distinct l :
  StronglySorted ts_gt l -> NoDup (map Timestamp_JST l).
Proof.
  induction 1 as [|x t Hs IH Hall]; simpl; constructor; [|exact IH].
  intros Hin. apply in_map_iff in Hin. destruct Hin as [y [Ey Hy]].
  rewrite Forall_forall in Hall. specialize (Hall y Hy).
  unfold ts_gt in Hall. lia.
Qed.

Lemma sort_values_unique_without_ties_witness :
  NoDup (map Timestamp_JST (decode_payload (example_row 600000000000 []))) /\
  sort_values keeping_sorter (decode_payload (example_row 600000000000 []))
  = sort_values reversing_sorter (decode_payload (example_row 600000000000 [])).
Proof.
  assert (H : NoDup (map Timestamp_JST
                       (decode_payload (example_row 600000000000 [])))).
  { apply descending_distinct, decode_payload_descending. }
  split; [exact H|].
  exact (sort_values_unique_without_ties keeping_sorter reversing_sorter _ H).
Defined.

(** ** Files in chronological order *)








(** ** Timestamp normalization *)

Lemma In_normalize P raws row :
  In row (normalize P raws) ->
  exists r, In r raws /\
    Data row = raw_Data r /\ DeviceID row = raw_DeviceID r.
Proof.
  unfold normalize. intros H. apply in_flat_map in H.
  destruct H as [[r t] [Hc Hr]]. apply in_combine_l in Hc.
  exists r. split; [exact Hc|].
  simpl in Hr. destruct t as [t|]; [|destruct Hr].
  destruct Hr as [<-|[]]. split; reflexivity.
Qed.

Lemma normalize_combine (raws : list RawRow) (cells : list (option Z)) :
  (List.length
     (flat_map (fun rt => dropna_row (fst rt) (snd rt)) (combine raws cells))
   <= List.length raws)%nat /\
  (List.length cells = List.length raws ->
   Forall (fun c => c <> None) cells ->
   map (fun row => (Data row, DeviceID row))
       (flat_map (fun rt => dropna_row (fst rt) (snd rt)) (combine raws cells))
   = map (fun r => (raw_Data r, raw_DeviceID r)) raws).
Proof.
  revert cells. induction raws as [|r rest IH]; intros cells.
  - split; [simpl; lia | reflexivity].
  - destruct cells as [|c cells'].
    + split; [simpl; lia | discriminate].
    + destruct (IH cells') as [IHl IHm]. split.
      * simpl. rewrite length_app. destruct c; simpl; lia.
      * intros Hlen Hall. inversion Hall as [|? ? Hc Hall']; subst.
        simpl. rewrite map_app.
        destruct c as [t|]; [|congruence]. simpl.
        rewrite IHm; [reflexivity | simpl in Hlen; lia | exact Hall'].
Qed.

(** X10: the normalization only drops rows: every row it keeps has the
    payload and the device ID of a row of the table, the rows are no more
    than before, and when every timestamp is parsed the payloads and
    device IDs come out unchanged, in order. *)
Theorem normalize_only_drops (P : DateParser) (raws : list RawRow) :
  (forall row, In row (normalize P raws) ->
     exists r, In r raws /\
       Data row = raw_Data r /\ DeviceID row = raw_DeviceID r) /\
  (List.length (normalize P raws) <= List.length raws)%nat /\
  (Forall (fun c => c <> None) (to_datetime P (map raw_Timestamp raws)) ->
   map (fun row => (Data row, DeviceID row)) (normalize P raws)
   = map (fun r => (raw_Data r, raw_DeviceID r)) raws).
Proof.
  split; [apply In_normalize|].
  destruct (normalize_combine raws (to_datetime P (map raw_Timestamp raws)))
    as [Hl Hm].
  split; [exact Hl|].
  intros Hall. apply Hm; [|exact Hall].
  rewrite to_datetime_length, length_map. reflexivity.
Qed.

(** ** The outcomes of [main] *)

Lemma decode_payload_length row :
  List.length (decode_payload row) = if yields row then 5%nat else 0%nat.
Proof.
  rewrite decode_payload_cases. unfold yields.
  destruct ((24 <=? List.length (re_sub_nonhex (Data row)))%nat
            && in_window row); reflexivity.
Qed.

Lemma batches_length rows :
  List.length (flat_map decode_payload rows)
  = (5 * List.length (filter yields rows))%nat.
Proof.
  induction rows as [|row rest IH]; [reflexivity|].
  simpl flat_map. rewrite length_app, decode_payload_length, IH. simpl filter.
  destruct (yields row); simpl; lia.
Qed.

Lemma batches_empty rows :
  flat_map decode_payload rows = [] <->
  (forall row, In row rows -> yields row = false).
Proof.
  split.
  - intros E row Hin.
    destruct (yields row) eqn:Ed; [|reflexivity].
    assert (Hl : List.length (decode_payload row) = 5%nat)
      by (rewrite decode_payload_length, Ed; reflexivity).
    destruct (decode_payload row) as [|r t] eqn:Er; [discriminate|].
    assert (Hr : In r (flat_map decode_payload rows)).
    { apply in_flat_map. exists row. split; [exact Hin|].
      rewrite Er. left. reflexivity. }
    rewrite E in Hr. destruct Hr.
  - intros H. induction rows as [|row rest IH]; [reflexivity|].
    simpl. assert (Hd : decode_payload row = []).
    { pose proof (decode_payload_length row) as Hl.
      rewrite (H row (or_introl eq_refl)) in Hl.
      destruct (decode_payload row); [reflexivity|discriminate]. }
    rewrite Hd. simpl. apply IH. intros r Hr. apply H. right. exact Hr.
Qed.

Lemma yields_decodable row : yields row = true -> decodable row = true.
Proof. unfold yields, decodable. intros H. apply andb_true_iff in H. tauto. Qed.

Lemma yields_representable row :
  decodable row = true -> representable row -> yields row = true.
Proof.
  unfold yields, decodable. intros Hd Hr.
  rewrite Hd, (representable_in_window row Hr). reflexivity.
Qed.

Lemma not_yields row :
  decodable row = false \/ Timestamp row - Timedelta_minutes 8 < int64_min ->
  yields row = false.
Proof.
  unfold yields, decodable, in_window. intros [H|H].
  - rewrite H. reflexivity.
  - apply Z.leb_gt in H. rewrite H. apply andb_false_r.
Qed.

Lemma load_data_empty lines :
  load_data lines = [] <->
  (forall line, In line lines -> parse_line line = None).
Proof.
  split.
  - intros E line Hin. destruct (parse_line line) as [r|] eqn:Ep; [|reflexivity].
    assert (Hr : In r (load_data lines))
      by (apply In_load_data; exists line; auto).
    rewrite E in Hr. destruct Hr.
  - intros H. destruct (load_data lines) as [|r t] eqn:E; [reflexivity|].
    assert (Hr : In r (load_data lines)) by (rewrite E; left; reflexivity).
    apply In_load_data in Hr. destruct Hr as [line [Hin Hp]].
    rewrite (H line Hin) in Hp. discriminate.
Qed.

Lemma main_no_packets P S lines :
  main P S lines = NoPackets <->
  load_data lines <> [] /\
  forall row, In row (normalize P (load_data lines)) -> yields row = false.
Proof.
  rewrite <- batches_empty. unfold main. rewrite collect_app. simpl app.
  destruct (load_data lines) as [|r t] eqn:E.
  - split; [discriminate|]. intros [H _]. congruence.
  - destruct (flat_map decode_payload (normalize P (r :: t))) eqn:Ec.
    + split; [|reflexivity]. intros _. split; [discriminate|reflexivity].
    + split; [discriminate|]. intros [_ H]. discriminate.
Qed.

Lemma load_data_kept lines :
  (exists line, In line lines /\ parse_line line <> None) <->
  load_data lines <> [].
Proof.
  rewrite load_data_empty. split.
  - intros [line [Hin Hp]] H. apply Hp, H, Hin.
  - intros H. destruct (load_data lines) as [|r t] eqn:E.
    + exfalso. apply H. apply load_data_empty. exact E.
    + assert (Hr : In r (load_data lines)) by (rewrite E; left; reflexivity).
      apply In_load_data in Hr. destruct Hr as [line [Hin Hp]].
      exists line. split; [exact Hin|]. rewrite Hp. discriminate.
Qed.

(** X11: [main] stops with its first message (no data) exactly when every
    line of the file is skipped.  It stops with its second (no valid
    packet) when some line is kept and every row left by the
    normalization has either a payload of fewer than 24 hex digits or an
    instant so early that the instant eight minutes before it falls below
    the 64-bit range; it does not stop there when one of these rows has a
    payload of 24 hex digits and an instant that is a valid [Timestamp] at
    least eight minutes after the smallest one. *)
Theorem main_early_returns (P : DateParser) (S : Sorter) (lines : list str) :
  (main P S lines = NoData <->
   forall line, In line lines -> parse_line line = None) /\
  ((exists line, In line lines /\ parse_line line <> None) ->
   (forall row, In row (normalize P (load_data lines)) ->
      decodable row = false \/
      Timestamp row - Timedelta_minutes 8 < int64_min) ->
   main P S lines = NoPackets) /\
  (main P S lines = NoPackets ->
   (exists line, In line lines /\ parse_line line <> None) /\
   forall row, In row (normalize P (load_data lines)) ->
               ~ (decodable row = true /\ representable row)).
Proof.
  split; [|split].
  - rewrite <- load_data_empty. unfold main.
    destruct (load_data lines) as [|r t]; [tauto|].
    split; [|discriminate].
    destruct (collect (normalize P (r :: t)) []); discriminate.
  - intros Hk Hrows. apply main_no_packets. split.
    + apply load_data_kept, Hk.
    + intros row Hin. apply not_yields, Hrows, Hin.
  - intros Hm. apply main_no_packets in Hm. destruct Hm as [Hk Hrows].
    split; [apply load_data_kept, Hk|].
    intros row Hin [Hd Hr].
    specialize (Hrows row Hin).
    rewrite (yields_representable row Hd Hr) in Hrows. discriminate.
Qed.

Lemma load_data_length lines :
  (List.length (load_data lines) <= List.length lines)%nat.
Proof.
  unfold load_data. rewrite load_data_loop_app. simpl.
  induction lines as [|line rest IH]; simpl; [lia|].
  rewrite length_app. destruct (parse_line line); simpl; lia.
Qed.

Lemma main_chart_inv P S lines df dev ylim :
  main P S lines = Chart df dev ylim ->
  let all := flat_map decode_payload (normalize P (load_data lines)) in
  all <> [] /\ df = sort_values S all /\
  dev = match df with
        | r :: _ => Sample_DeviceID r
        | [] => codes "Unknown"
        end /\
  ylim = (if negb (PrimFloat.is_nan (column_min (map Voltage_V df)))
             && negb (PrimFloat.is_nan (column_max (map Voltage_V df)))
          then Some (column_min (map Voltage_V df) - 0.05,
                     column_max (map Voltage_V df) + 0.05)%float
          else None).
Proof.
  unfold main. rewrite collect_app. simpl app.
  destruct (load_data lines) as [|r0 t0]; [discriminate|].
  destruct (flat_map decode_payload (normalize P (r0 :: t0))) as [|s l] eqn:E;
    [discriminate|].
  intros H. inversion H; subst. cbv zeta.
  split; [discriminate|]. repeat split.
Qed.

Lemma filter_yields_le rows :
  (List.length (filter yields rows)
   <= List.length (filter decodable rows))%nat.
Proof.
  induction rows as [|row rest IH]; simpl; [lia|].
  destruct (yields row) eqn:Ey.
  - rewrite (yields_decodable row Ey). simpl. lia.
  - destruct (decodable row); simpl; lia.
Qed.

Lemma filter_yields_representable rows :
  (forall row, In row rows -> representable row) ->
  filter yields rows = filter decodable rows.
Proof.
  intros H. apply filter_ext_in. intros row Hin.
  destruct (decodable row) eqn:Ed.
  - apply yields_representable; [exact Ed | apply H, Hin].
  - unfold yields. unfold decodable in Ed. rewrite Ed. reflexivity.
Qed.

(** X12: when [main] reaches the chart, the number of plotted samples is
    five times a number of rows between one and the number of normalized
    rows with a payload of 24 hex digits, and at most five per line of the
    file.  When every normalized row has an instant that is a valid
    [Timestamp] at least eight minutes after the smallest one, it is
    exactly five times the number of rows with such a payload, and the
    device ID put in the title is that of a row owning one of the
    earliest samples, so the fallback label is not used. *)
Theorem main_chart_contents (P : DateParser) (S : Sorter) (lines : list str)
    (df : list Sample) (dev : str) (ylim : option (float * float)) :
  main P S lines = Chart df dev ylim ->
  let rows := normalize P (load_data lines) in
  (exists n, List.length df = (5 * n)%nat /\ (0 < n)%nat /\
             (n <= List.length (filter decodable rows))%nat) /\
  (List.length df <= 5 * List.length lines)%nat /\
  ((forall row, In row rows -> representable row) ->
   List.length df = (5 * List.length (filter decodable rows))%nat /\
   exists row r,
     In row rows /\ In r (decode_payload row) /\ dev = DeviceID row /\
     (exists rest, df = r :: rest) /\
     forall r', In r' df -> Timestamp_JST r <= Timestamp_JST r').
Proof.
  intros Hm rows. apply main_chart_inv in Hm. fold rows in Hm.
  destruct Hm as [Hne [Hdf [Hdev _]]].
  pose proof (sort_values_perm S (flat_map decode_payload rows)) as Hp.
  rewrite <- Hdf in Hp.
  assert (Hlen : List.length df = (5 * List.length (filter yields rows))%nat).
  { rewrite <- (Permutation_length Hp). apply batches_length. }
  pose proof (filter_yields_le rows) as Hle.
  assert (Hpos : (0 < List.length (filter yields rows))%nat).
  { destruct (flat_map decode_payload rows) as [|s l] eqn:E; [congruence|].
    apply Permutation_length in Hp. simpl in Hp. lia. }
  split; [|split].
  - exists (List.length (filter yields rows)). auto.
  - rewrite Hlen.
    pose proof (filter_length_le decodable rows) as H1.
    destruct (normalize_combine (load_data lines)
                (to_datetime P (map raw_Timestamp (load_data lines))))
      as [H2 _].
    fold (normalize P (load_data lines)) in H2. fold rows in H2.
    pose proof (load_data_length lines) as H3. lia.
  - intros Hrep. split.
    + rewrite Hlen, (filter_yields_representable rows Hrep). reflexivity.
    + pose proof (sort_values_sorted S (flat_map decode_payload rows)) as Hs.
      rewrite <- Hdf in Hs.
      destruct df as [|r rest].
      * apply Permutation_sym, Permutation_nil in Hp. congruence.
      * assert (Hr : In r (flat_map decode_payload rows)).
        { eapply Permutation_in;
            [apply Permutation_sym, Hp | left; reflexivity]. }
        apply in_flat_map in Hr. destruct Hr as [row [Hrow Hr]].
        exists row, r. split; [exact Hrow|]. split; [exact Hr|]. split.
        -- rewrite Hdev. destruct (In_decode_payload _ _ Hr) as [i [_ ->]].
           reflexivity.
        -- split; [exists rest; reflexivity|].
           inversion Hs as [|? ? _ Hall]; subst.
           rewrite Forall_forall in Hall.
           intros r' [<-|Hr']; [lia | apply (Hall r' Hr')].
Qed.

Lemma main_chart_contents_witness :
  main seconds_parser keeping_sorter small_export
  = Chart (sort_values keeping_sorter
             (flat_map decode_payload
                (normalize seconds_parser (load_data small_export))))
          (codes "1F06AD2")
          (Some (2.25 - 0.05, 3.5 + 0.05)%float) /\
  (forall row, In row (normalize seconds_parser (load_data small_export)) ->
     representable row) /\
  List.length (sort_values keeping_sorter
                 (flat_map decode_payload
                    (normalize seconds_parser (load_data small_export))))
  = 10%nat.
Proof.
  assert (H : main seconds_parser keeping_sorter small_export
              = Chart (sort_values keeping_sorter
                         (flat_map decode_payload
                            (normalize seconds_parser (load_data small_export))))
                      (codes "1F06AD2")
                      (Some (2.25 - 0.05, 3.5 + 0.05)%float))
    by (vm_compute; reflexivity).
  assert (Hr : forall row,
             In row (normalize seconds_parser (load_data small_export)) ->
             representable row).
  { intros row Hin. vm_compute in Hin.
    destruct Hin as [<-|[<-|[]]]; vm_compute; split; discriminate. }
  split; [exact H|]. split; [exact Hr|].
  rewrite (proj1 (proj2 (proj2 (main_chart_contents _ _ _ _ _ _ H)) Hr)).
  reflexivity.
Defined.

(** ** The limits of the voltage axis *)

Lemma volt_table :
  forallb (fun b1 => forallb (volt_table_ok b1) bytes) bytes = true.
Proof. vm_compute. reflexivity. Qed.

Lemma volt_table_spec b1 b2 :
  0 <= b1 <= 255 -> 0 <= b2 <= 255 ->
  (voltage_of b2 <? voltage_of b1)%float = (b2 <? b1) /\
  (voltage_of b1 <=? voltage_of b2)%float = (b1 <=? b2) /\
  PrimFloat.is_nan (voltage_of b1) = false.
Proof.
  intros H1 H2. pose proof volt_table as T.
  rewrite forallb_forall in T. specialize (T b1 (byte_is_listed b1 H1)).
  rewrite forallb_forall in T. specialize (T b2 (byte_is_listed b2 H2)).
  unfold volt_table_ok in T.
  apply andb_true_iff in T. destruct T as [T T3].
  apply andb_true_iff in T. destruct T as [T1 T2].
  apply Bool.eqb_prop in T1, T2. apply negb_true_iff in T3. auto.
Qed.

Lemma volt_margin_table :
  forallb (fun b1 => forallb (volt_margin_ok b1) bytes) bytes = true.
Proof. vm_compute. reflexivity. Qed.

Lemma volt_margin_spec b1 b2 :
  0 <= b1 <= b2 -> b2 <= 255 ->
  (voltage_of b1 - 0.05 <? voltage_of b2)%float = true /\
  (voltage_of b1 <? voltage_of b2 + 0.05)%float = true.
Proof.
  intros H1 H2. pose proof volt_margin_table as T.
  rewrite forallb_forall in T.
  specialize (T b1 (byte_is_listed b1 ltac:(lia))).
  rewrite forallb_forall in T.
  specialize (T b2 (byte_is_listed b2 ltac:(lia))).
  unfold volt_margin_ok in T.
  destruct (b1 <=? b2) eqn:E; [|apply Z.leb_gt in E; lia].
  apply andb_true_iff in T. exact T.
Qed.

Lemma skipna_volts bs :
  Forall in_byte bs -> skipna (map voltage_of bs) = map voltage_of bs.
Proof.
  unfold skipna. induction 1 as [|b t Hb _ IH]; simpl; [reflexivity|].
  destruct (volt_table_spec b b Hb Hb) as [_ [_ Hn]].
  rewrite Hn, IH. reflexivity.
Qed.

Lemma fold_min_volts l m :
  Forall in_byte l -> in_byte m ->
  exists b, In b (m :: l) /\ in_byte b /\
    (forall y, In y (m :: l) -> b <= y) /\
    fold_left (fun m y => if (y <? m)%float then y else m)
              (map voltage_of l) (voltage_of m)
    = voltage_of b.
Proof.
  intros Hl. revert m. induction Hl as [|y t Hy _ IH]; intros m Hm.
  - exists m. split; [left; reflexivity|]. split; [exact Hm|].
    split; [|reflexivity]. intros y [<-|[]]. lia.
  - simpl map. simpl fold_left.
    destruct (volt_table_spec m y Hm Hy) as [E _]. rewrite E.
    destruct (y <? m) eqn:Ey; bool_to_prop.
    + destruct (IH y Hy) as [b [Hin [Hb [Hmin Hf]]]].
      exists b. split; [right; exact Hin|]. split; [exact Hb|].
      split; [|exact Hf].
      intros z [<-|Hz]; [|apply Hmin, Hz].
      specialize (Hmin y (or_introl eq_refl)). lia.
    + destruct (IH m Hm) as [b [Hin [Hb [Hmin Hf]]]].
      exists b. split.
      { destruct Hin as [<-|Hin]; [left; reflexivity | right; right; exact Hin]. }
      split; [exact Hb|]. split; [|exact Hf].
      intros z [<-|[<-|Hz]].
      * apply Hmin. left. reflexivity.
      * specialize (Hmin m (or_introl eq_refl)). lia.
      * apply Hmin. right. exact Hz.
Qed.

Lemma fold_max_volts l m :
  Forall in_byte l -> in_byte m ->
  exists b, In b (m :: l) /\ in_byte b /\
    (forall y, In y (m :: l) -> y <= b) /\
    fold_left (fun m y => if (m <? y)%float then y else m)
              (map voltage_of l) (voltage_of m)
    = voltage_of b.
Proof.
  intros Hl. revert m. induction Hl as [|y t Hy _ IH]; intros m Hm.
  - exists m. split; [left; reflexivity|]. split; [exact Hm|].
    split; [|reflexivity]. intros y [<-|[]]. lia.
  - simpl map. simpl fold_left.
    destruct (volt_table_spec y m Hy Hm) as [E _]. rewrite E.
    destruct (m <? y) eqn:Ey; bool_to_prop.
    + destruct (IH y Hy) as [b [Hin [Hb [Hmax Hf]]]].
      exists b. split; [right; exact Hin|]. split; [exact Hb|].
      split; [|exact Hf].
      intros z [<-|Hz]; [|apply Hmax, Hz].
      specialize (Hmax y (or_introl eq_refl)). lia.
    + destruct (IH m Hm) as [b [Hin [Hb [Hmax Hf]]]].
      exists b. split.
      { destruct Hin as [<-|Hin]; [left; reflexivity | right; right; exact Hin]. }
      split; [exact Hb|]. split; [|exact Hf].
      intros z [<-|[<-|Hz]].
      * apply Hmax. left. reflexivity.
      * specialize (Hmax m (or_introl eq_refl)). lia.
      * apply Hmax. right. exact Hz.
Qed.

Lemma volts_of_bytes (df : list Sample) :
  (forall r, In r df -> exists b, in_byte b /\ Voltage_V r = voltage_of b) ->
  exists bs, Forall in_byte bs /\ map Voltage_V df = map voltage_of bs.
Proof.
  induction df as [|r t IH]; intros H.
  - exists []. split; [constructor | reflexivity].
  - destruct (H r (or_introl eq_refl)) as [b [Hb Eb]].
    destruct IH as [bs [Hbs Ebs]].
    { intros r' Hr'. apply H. right. exact Hr'. }
    exists (b :: bs). split; [constructor; assumption|].
    simpl. rewrite Eb, Ebs. reflexivity.
Qed.

Lemma decoded_voltage_byte row r :
  In r (decode_payload row) ->
  exists b, in_byte b /\ Voltage_V r = voltage_of b.
Proof.
  intros Hin. pose proof (decode_payload_nonempty _ _ Hin) as Hl.
  destruct (In_decode_payload _ _ Hin) as [i [_ ->]].
  exists (byte_at (re_sub_nonhex (Data row)) 0). split; [|reflexivity].
  apply byte_at_range; [apply re_sub_nonhex_all_hex | lia].
Qed.

(** X13: when [main] reaches the chart, the limits of the voltage axis are
    always set (the test for missing values never fails): the lower limit
    is the voltage of one of the plotted samples minus 0.05, the upper
    limit the voltage of one of them plus 0.05, and the voltage of every
    plotted sample lies strictly between the two. *)
Theorem main_chart_ylim (P : DateParser) (S : Sorter) (lines : list str)
    (df : list Sample) (dev : str) (ylim : option (float * float)) :
  main P S lines = Chart df dev ylim ->
  exists lo hi,
    ylim = Some (lo, hi) /\
    (exists r, In r df /\ lo = (Voltage_V r - 0.05)%float) /\
    (exists r, In r df /\ hi = (Voltage_V r + 0.05)%float) /\
    forall r, In r df ->
      (lo <? Voltage_V r)%float = true /\ (Voltage_V r <? hi)%float = true.
Proof.
  intros Hm. apply main_chart_inv in Hm. cbv zeta in Hm.
  destruct Hm as [Hne [Hdf [_ Hy]]].
  set (all := flat_map decode_payload (normalize P (load_data lines))) in *.
  pose proof (sort_values_perm S all) as Hp. rewrite <- Hdf in Hp.
  assert (Hv : forall r, In r df ->
                 exists b, in_byte b /\ Voltage_V r = voltage_of b).
  { intros r Hr.
    assert (Hr' : In r all)
      by (eapply Permutation_in; [apply Permutation_sym, Hp | exact Hr]).
    apply in_flat_map in Hr'. destruct Hr' as [row [_ Hr']].
    eapply decoded_voltage_byte, Hr'. }
  destruct (volts_of_bytes df Hv) as [bs [Hbs Ebs]].
  destruct bs as [|b0 bs'].
  { destruct df; [|discriminate].
    apply Permutation_sym, Permutation_nil in Hp. congruence. }
  assert (Hb0 : in_byte b0) by (inversion Hbs; assumption).
  assert (Hbs' : Forall in_byte bs') by (inversion Hbs; assumption).
  destruct (fold_min_volts bs' b0 Hbs' Hb0) as [bmin [Imin [Bmin [Lmin Fmin]]]].
  destruct (fold_max_volts bs' b0 Hbs' Hb0) as [bmax [Imax [Bmax [Lmax Fmax]]]].
  assert (Emin : column_min (map Voltage_V df) = voltage_of bmin).
  { unfold column_min. rewrite Ebs, skipna_volts by exact Hbs. exact Fmin. }
  assert (Emax : column_max (map Voltage_V df) = voltage_of bmax).
  { unfold column_max. rewrite Ebs, skipna_volts by exact Hbs. exact Fmax. }
  rewrite Emin, Emax in Hy.
  destruct (volt_table_spec bmin bmin Bmin Bmin) as [_ [_ Nmin]].
  destruct (volt_table_spec bmax bmax Bmax Bmax) as [_ [_ Nmax]].
  rewrite Nmin, Nmax in Hy. simpl in Hy.
  assert (Hback : forall b, In b (b0 :: bs') ->
            exists r, In r df /\ Voltage_V r = voltage_of b).
  { intros b Hb. apply (in_map voltage_of) in Hb. rewrite <- Ebs in Hb.
    apply in_map_iff in Hb. destruct Hb as [r [Er Hr]].
    exists r. split; [exact Hr | exact Er]. }
  exists (voltage_of bmin - 0.05)%float, (voltage_of bmax + 0.05)%float.
  split; [exact Hy|]. split; [|split].
  - destruct (Hback bmin Imin) as [r [Hr Er]]. exists r.
    split; [exact Hr|]. rewrite Er. reflexivity.
  - destruct (Hback bmax Imax) as [r [Hr Er]]. exists r.
    split; [exact Hr|]. rewrite Er. reflexivity.
  - intros r Hr.
    assert (Hb : exists b, In b (b0 :: bs') /\ Voltage_V r = voltage_of b).
    { apply (in_map Voltage_V) in Hr. rewrite Ebs in Hr.
      apply in_map_iff in Hr. destruct Hr as [b [Eb Hb]].
      exists b. split; [exact Hb | symmetry; exact Eb]. }
    destruct Hb as [b [Hb ->]].
    assert (Rb : in_byte b).
    { rewrite Forall_forall in Hbs. apply Hbs, Hb. }
    specialize (Lmin b Hb). specialize (Lmax b Hb). unfold in_byte in *.
    split.
    + apply (volt_margin_spec bmin b); lia.
    + apply (volt_margin_spec b bmax); lia.
Qed.

Lemma main_chart_ylim_witness :
  main seconds_parser keeping_sorter small_export
  = Chart (sort_values keeping_sorter
             (flat_map decode_payload
                (normalize seconds_parser (load_data small_export))))
          (codes "1F06AD2")
          (Some (2.25 - 0.05, 3.5 + 0.05)%float) /\
  exists lo hi, Some (2.25 - 0.05, 3.5 + 0.05)%float = Some (lo, hi).
Proof.
  assert (H : main seconds_parser keeping_sorter small_export
              = Chart (sort_values keeping_sorter
                         (flat_map decode_payload
                            (normalize seconds_parser (load_data small_export))))
                      (codes "1F06AD2")
                      (Some (2.25 - 0.05, 3.5 + 0.05)%float))
    by (vm_compute; reflexivity).
  split; [exact H|].
  destruct (main_chart_ylim _ _ _ _ _ _ H) as [lo [hi [E _]]].
  exists lo, hi. exact E.
Defined.

Lemma normalize_only_drops_witness :
  In (mkRow (codes "6432000A000B000C000D000E") (codes "1F06AD2") 600000000000)
     (normalize seconds_parser (load_data small_export)) /\
  exists r, In r (load_data small_export) /\
            raw_Data r = codes "6432000A000B000C000D000E".
Proof.
  assert (H : In (mkRow (codes "6432000A000B000C000D000E") (codes "1F06AD2")
                        600000000000)
                 (normalize seconds_parser (load_data small_export)))
    by (vm_compute; right; left; reflexivity).
  split; [exact H|].
  destruct (proj1 (normalize_only_drops seconds_parser
                     (load_data small_export)) _ H) as [r [Hr [Hd _]]].
  exists r. split; [exact Hr|]. symmetry. exact Hd.
Defined.

Lemma main_early_returns_witness :
  (forall line, In line [header_line; [10]; codes "a;b;c"] ->
     parse_line line = None) /\
  main seconds_parser keeping_sorter [header_line; [10]; codes "a;b;c"]
  = NoData /\
  main (fixed_parser (Timestamp early_row)) keeping_sorter
       [codes "6432;1F06AD2;7;-"; data_line]
  = NoPackets.
Proof.
  assert (H : forall line, In line [header_line; [10]; codes "a;b;c"] ->
                parse_line line = None).
  { intros line [<-|[<-|[<-|[]]]]; reflexivity. }
  split; [exact H|]. split.
  - exact (proj2 (proj1 (main_early_returns seconds_parser keeping_sorter
                           [header_line; [10]; codes "a;b;c"])) H).
  - apply (proj1 (proj2 (main_early_returns
                           (fixed_parser (Timestamp early_row))
                           keeping_sorter _))).
    + exists data_line. split; [right; left; reflexivity|].
      vm_compute. discriminate.
    + intros row Hin. vm_compute in Hin.
      destruct Hin as [<-|[<-|[]]].
      * left. reflexivity.
      * right. reflexivity.
Defined.

(** ** The parser and the decoder together *)

Lemma space_not_hex c : is_space c = true -> is_hex c = false.
Proof.
  unfold is_space, is_hex, hex_digit. intros H.
  destruct ((48 <=? c) && (c <=? 57)) eqn:E1;
    destruct ((97 <=? c) && (c <=? 102)) eqn:E2;
    destruct ((65 <=? c) && (c <=? 70)) eqn:E3; try reflexivity;
    repeat match goal with
           | H : (_ || _) = true |- _ => apply orb_true_iff in H; destruct H
           | H : (_ =? _) = true |- _ => apply Z.eqb_eq in H
           end;
    bool_to_prop; lia.
Qed.

Lemma re_sub_nonhex_lstrip s : re_sub_nonhex (lstrip s) = re_sub_nonhex s.
Proof.
  unfold re_sub_nonhex. induction s as [|c t IH]; simpl; [reflexivity|].
  destruct (is_space c) eqn:E; [|reflexivity].
  rewrite (space_not_hex c E). exact IH.
Qed.

Lemma re_sub_nonhex_rev s : re_sub_nonhex (rev s) = rev (re_sub_nonhex s).
Proof.
  unfold re_sub_nonhex. induction s as [|c t IH]; simpl; [reflexivity|].
  rewrite filter_app, IH. simpl.
  destruct (is_hex c); simpl; [reflexivity | apply app_nil_r].
Qed.

Lemma re_sub_nonhex_strip s : re_sub_nonhex (strip s) = re_sub_nonhex s.
Proof.
  unfold strip, rstrip.
  rewrite re_sub_nonhex_rev, re_sub_nonhex_lstrip, re_sub_nonhex_rev.
  rewrite rev_involutive. apply re_sub_nonhex_lstrip.
Qed.

Lemma re_sub_nonhex_remove_char q s :
  is_hex q = false -> re_sub_nonhex (remove_char q s) = re_sub_nonhex s.
Proof.
  intros Hq. unfold re_sub_nonhex, remove_char.
  induction s as [|c t IH]; simpl; [reflexivity|].
  destruct (c =? q) eqn:E; simpl.
  - apply Z.eqb_eq in E. subst c. rewrite Hq. exact IH.
  - rewrite IH. reflexivity.
Qed.

(** X14: the cleaning of the fields never changes what a payload decodes
    to: a row decodes to the same batch whether it carries the payload
    field as written in the file or as cleaned, so quotes and blanks left
    in or around the payload are harmless. *)
Theorem decode_payload_clean (p dev : str) (t : Z) :
  decode_payload (mkRow (clean p) dev t) = decode_payload (mkRow p dev t).
Proof.
  assert (E : re_sub_nonhex (clean p) = re_sub_nonhex p).
  { unfold clean.
    rewrite !re_sub_nonhex_remove_char by reflexivity.
    apply re_sub_nonhex_strip. }
  unfold decode_payload. cbn [Data DeviceID Timestamp]. rewrite E.
  reflexivity.
Qed.
